(** * Scrape orchestration and change detection of bluray-tracker

    Shallow embedding of [src/src/domain/change_detector.hpp] and
    [src/src/application/scheduler.cpp].

    - C++ [double] prices are Rocq's primitive binary64 floats, so the
      comparisons [<=], [>] and [std::abs(a - b) > 0.01] have their IEEE
      meaning (NaN compares false).
    - C++ [int] is a [Z] with its 32-bit two's-complement wrap written out.
    - A call that may log, notify observers or throw is a value of the
      writer/exception monad [M]: the list of effects it performed in order,
      and either its result or [Raised] for a propagating C++ exception.
    - Collaborators that are outside this code (scrapers, image cache,
      SQLite repository, clock) are the fields of an environment [Env]. *)

From Stdlib Require Import ZArith List String Bool Lia PrimFloat.
From Stdlib Require SpecFloat FloatAxioms.
Import ListNotations.
Open Scope string_scope.
Open Scope list_scope.
#[global] Set Warnings "-inexact-float".


(* ------------------------------------------------------------------ *)
(** ** Domain model ([src/src/domain/models.hpp]) *)

Module Domain.

(** [struct WishlistItem]; the TMDb and edition fields are not read by
    the scheduler or the change detector and are left out. *)
Record WishlistItem := mkWishlistItem {
  id : Z;
  url : string;
  title : string;
  current_price : float;
  desired_max_price : float;
  in_stock : bool;
  is_uhd_4k : bool;
  image_url : string;
  local_image_path : string;
  source : string;
  last_checked : Z;
  notify_on_price_drop : bool;
  notify_on_stock : bool;
  title_locked : bool
}.

(** [struct Product], the scraped snapshot. *)
Record Product := mkProduct {
  p_url : string;
  p_title : string;
  price : float;
  p_in_stock : bool;
  p_is_uhd_4k : bool;
  p_image_url : string;
  p_local_image_path : string;
  last_updated : Z;
  p_source : string
}.

(** A default-constructed [Product{}]. *)
Definition default_product : Product :=
  mkProduct "" "" 0%float false false "" "" 0 "".

(** [enum class ChangeType]. *)
Inductive ChangeType :=
| PriceDroppedBelowThreshold
| BackInStock
| PriceChanged
| OutOfStock.

(** [struct ChangeEvent]. *)
Record ChangeEvent := mkChangeEvent {
  type : ChangeType;
  item : WishlistItem;
  old_price : option float;
  new_price : option float;
  old_stock_status : option bool;
  new_stock_status : option bool;
  detected_at : Z
}.

End Domain.
Import Domain.

(* ------------------------------------------------------------------ *)
(** ** Effects, exceptions and collaborators *)

Module Effects.

(** An observer ([IChangeObserver], implemented by every [INotifier]):
    its identity, [isConfigured()], and whether its [notify(event)]
    throws on a given event. *)
Record Observer := mkObserver {
  obs_id : nat;
  obs_configured : bool;
  obs_throws : ChangeEvent -> bool
}.

(** Observable effects of the scheduler code, in program order. *)
Inductive effect :=
| LogDebug (msg : string)
| LogWarning (msg : string)
| LogError (msg : string)
| LogDetected (n : nat) (title : string)    (** "Detected {} change(s) for: {}" *)
| LogChange (ev : ChangeEvent)              (** "  - {}" with [describe()] *)
| Notify (observer : nat) (ev : ChangeEvent) (** [observer->onChangeDetected] *)
| RepoUpdate (it : WishlistItem) (ok : bool)  (** [repo.update(updated_item)] *)
| HistoryAdd (item_id : Z) (price : float) (in_stock : bool)
| SuccessInc      (** [success_count++] *)
| ErrorInc        (** [error_count++] *)
| ProcessedInc    (** [processed_count++] *)
| ScrapeProcessedInc. (** [scrape_processed_++] *)

Inductive outcome (A : Type) : Type :=
| Normal (a : A)
| Raised.
Arguments Normal {A} a.
Arguments Raised {A}.

(** Writer and exception monad: effects performed, then the result. *)
Definition M (A : Type) : Type := (list effect * outcome A)%type.

Definition ret {A} (a : A) : M A := ([], Normal a).
Definition raise {A} : M A := ([], Raised).
Definition tell (e : effect) : M unit := ([e], Normal tt).

Definition bind {A B} (m : M A) (k : A -> M B) : M B :=
  match m with
  | (tr, Normal a) => let (tr', o) := k a in (tr ++ tr', o)
  | (tr, Raised) => (tr, Raised)
  end.

Notation "x <- m ;; k" := (bind m (fun x => k))
  (at level 61, m at next level, right associativity).
Notation "m ;;; k" := (bind m (fun _ : unit => k))
  (at level 61, right associativity).

Definition trace {A} (m : M A) : list effect := fst m.
Definition result {A} (m : M A) : outcome A := snd m.

(** What [scraper->scrape(url)] does: returns a product, returns
    [std::nullopt], or throws. *)
Inductive ScrapeRaw :=
| Scraped (p : Product)
| NoData
| Threw (what : string).

(** The collaborators the scheduler calls. *)
Record Env := mkEnv {
  now : Z;                              (** [system_clock::now()] *)
  has_scraper : string -> bool;         (** [ScraperFactory::create(url) != nullptr] *)
  scrape : string -> ScrapeRaw;         (** [scraper->scrape(url)] *)
  cache_image : string -> option string; (** [image_cache_->cacheImage(url)] *)
  repo_update : WishlistItem -> bool     (** [repo.update(item)] *)
}.

End Effects.
Import Effects.

(* ------------------------------------------------------------------ *)
(** ** [ChangeDetector] ([src/src/domain/change_detector.hpp]) *)

Module ChangeDetector.

(** [observers_] holds [shared_ptr]s, possibly null. *)
Definition observers := list (option Observer).

(** [addObserver] *)
Definition addObserver (o : option Observer) (obs : observers) : observers :=
  obs ++ [o].

(** [INotifier::onChangeDetected] calls [notify(event)], which may throw. *)
Definition onChangeDetected (o : Observer) (ev : ChangeEvent) : M unit :=
  tell (Notify (obs_id o) ev) ;;;
  if obs_throws o ev then raise else ret tt.

(** [notifyObservers]: no [try]/[catch]; a throw leaves the loop. *)
Fixpoint notifyObservers (obs : observers) (ev : ChangeEvent) : M unit :=
  match obs with
  | [] => ret tt
  | None :: rest => notifyObservers rest ev
  | Some o :: rest => onChangeDetected o ev ;;; notifyObservers rest ev
  end.

Definition eps : float := 0.01%float.

(** [detectChanges(old_item, new_item)] *)
Definition detectChanges (env : Env) (obs : observers)
    (old_item new_item : WishlistItem) : M (list ChangeEvent) :=
  let now := now env in
  if notify_on_price_drop new_item &&
     in_stock new_item &&
     PrimFloat.leb (current_price new_item) (desired_max_price new_item) &&
     PrimFloat.ltb (desired_max_price new_item) (current_price old_item)
  then
    let event := mkChangeEvent PriceDroppedBelowThreshold new_item
                   (Some (current_price old_item)) (Some (current_price new_item))
                   None None now in
    notifyObservers obs event ;;; ret [event]
  else if notify_on_stock new_item &&
          negb (in_stock old_item) &&
          in_stock new_item
  then
    let event := mkChangeEvent BackInStock new_item None None
                   (Some (in_stock old_item)) (Some (in_stock new_item)) now in
    notifyObservers obs event ;;; ret [event]
  else if PrimFloat.ltb eps
            (PrimFloat.abs (PrimFloat.sub (current_price old_item)
                                          (current_price new_item)))
  then
    ret [mkChangeEvent PriceChanged new_item
           (Some (current_price old_item)) (Some (current_price new_item))
           None None now]
  else if in_stock old_item && negb (in_stock new_item)
  then
    ret [mkChangeEvent OutOfStock new_item None None
           (Some (in_stock old_item)) (Some (in_stock new_item)) now]
  else ret [].

End ChangeDetector.

(* ------------------------------------------------------------------ *)
(** ** [Scheduler] ([src/src/application/scheduler.cpp]) *)

Module Scheduler.

(** [addNotifier]: only non-null, configured notifiers are registered. *)
Definition addNotifier (n : option Observer) (obs : ChangeDetector.observers)
    : ChangeDetector.observers :=
  match n with
  | Some o => if obs_configured o then ChangeDetector.addObserver (Some o) obs else obs
  | None => obs
  end.

(** The observer list after a sequence of [addNotifier] calls. *)
Definition registered (cands : list (option Observer)) : ChangeDetector.observers :=
  fold_left (fun obs n => addNotifier n obs) cands [].

(** [struct ScrapeResult] *)
Record ScrapeResult := mkScrapeResult {
  success : bool;
  product : Product;
  error_message : string
}.

(** [scrapeProduct(url)]: the scraper's exception is caught here. *)
Definition scrapeProduct (env : Env) (url : string) : ScrapeResult :=
  if negb (has_scraper env url) then
    mkScrapeResult false default_product "No scraper available for URL"
  else
    match scrape env url with
    | Scraped p => mkScrapeResult true p ""
    | NoData => mkScrapeResult false default_product "Scraping returned no data"
    | Threw w => mkScrapeResult false default_product ("Exception: " ++ w)%string
    end.

(** The copy-then-patch of [updated_item], field by field. *)
Definition merged_title (old_item : WishlistItem) (p : Product) : string :=
  if negb (title_locked old_item) && negb (String.eqb (p_title p) "")
  then p_title p else title old_item.

Definition merged_price (old_item : WishlistItem) (p : Product) : float :=
  if PrimFloat.ltb ChangeDetector.eps (price p) then price p
  else current_price old_item.

Definition merged_local_image_path (old_item : WishlistItem) (p : Product) : string :=
  if negb (String.eqb (p_local_image_path p) "") then p_local_image_path p
  else if negb (String.eqb (p_image_url p) (image_url old_item)) then
    (if negb (String.eqb (p_image_url p) "") then "" else local_image_path old_item)
  else local_image_path old_item.

Definition merged_item (old_item : WishlistItem) (p : Product) : WishlistItem :=
  {| id := id old_item;
     url := url old_item;
     title := merged_title old_item p;
     current_price := merged_price old_item p;
     desired_max_price := desired_max_price old_item;
     in_stock := p_in_stock p;
     is_uhd_4k := p_is_uhd_4k p;
     image_url := p_image_url p;
     local_image_path := merged_local_image_path old_item p;
     source := p_source p;
     last_checked := last_updated p;
     notify_on_price_drop := notify_on_price_drop old_item;
     notify_on_stock := notify_on_stock old_item;
     title_locked := title_locked old_item |}.

(** The warning of the price branch:
    [else if (product.in_stock && product.price < 0.01)]. *)
Definition zero_price_warning (p : Product) : bool :=
  negb (PrimFloat.ltb ChangeDetector.eps (price p)) &&
  p_in_stock p && PrimFloat.ltb (price p) ChangeDetector.eps.

Fixpoint log_changes (changes : list ChangeEvent) : M unit :=
  match changes with
  | [] => ret tt
  | c :: cs => tell (LogChange c) ;;; log_changes cs
  end.

(** [updateWishlistItem(repo, old_item, product)] *)
Definition updateWishlistItem (env : Env) (obs : ChangeDetector.observers)
    (old_item : WishlistItem) (p : Product) : M unit :=
  (if zero_price_warning p
   then tell (LogWarning ("Scraped 0 price for in-stock item: " ++ p_title p)%string)
   else ret tt) ;;;
  let updated_item := merged_item old_item p in
  changes <- ChangeDetector.detectChanges env obs old_item updated_item ;;
  let ok := repo_update env updated_item in
  tell (RepoUpdate updated_item ok) ;;;
  if negb ok then
    tell (LogError ("Failed to update wishlist item: " ++ url updated_item)%string)
  else
    tell (HistoryAdd (id updated_item) (current_price updated_item)
                     (in_stock updated_item)) ;;;
    match changes with
    | [] => ret tt
    | _ => tell (LogDetected (List.length changes) (title updated_item)) ;;;
           log_changes changes
    end.

(** The [process_item] lambda of [runOnce], one per-item task.  No
    [try]/[catch] surrounds it: an exception ends the task (it is stored in
    the [std::future], which is never [get()]). *)
Definition process_item (env : Env) (obs : ChangeDetector.observers)
    (it : WishlistItem) : M unit :=
  tell (LogDebug ("Scraping: " ++ url it)%string) ;;;
  let result := scrapeProduct env (url it) in
  (if success result then
     let p := product result in
     let p := if String.eqb (p_image_url p) "" then p
              else match cache_image env (p_image_url p) with
                   | Some path =>
                       {| p_url := p_url p; p_title := p_title p; price := price p;
                          p_in_stock := p_in_stock p; p_is_uhd_4k := p_is_uhd_4k p;
                          p_image_url := p_image_url p; p_local_image_path := path;
                          last_updated := last_updated p; p_source := p_source p |}
                   | None => p
                   end in
     updateWishlistItem env obs it p ;;;
     tell SuccessInc
   else
     tell (LogWarning ("Failed to scrape " ++ url it ++ ": " ++ error_message result)%string) ;;;
     tell ErrorInc) ;;;
  tell ProcessedInc ;;;
  tell ScrapeProcessedInc.

End Scheduler.

(* ------------------------------------------------------------------ *)
(** ** [Scheduler::runOnce]: counters, guard, throttle and admission *)

Module Run.

Local Open Scope Z_scope.

Definition is_eff (e : effect) (f : effect) : bool :=
  match e, f with
  | SuccessInc, SuccessInc | ErrorInc, ErrorInc
  | ProcessedInc, ProcessedInc | ScrapeProcessedInc, ScrapeProcessedInc => true
  | _, _ => false
  end.

(** How many times a trace performed a given counter increment. *)
Definition count (e : effect) (tr : list effect) : Z :=
  Z.of_nat (List.length (filter (is_eff e) tr)).

(** The three [std::atomic<int>] counters local to one run. *)
Record RunCounters := mkRunCounters {
  processed_count : Z;
  success_count : Z;
  error_count : Z
}.

Definition zero_counters : RunCounters := mkRunCounters 0 0 0.

(** The increments one finished task made to the run's atomic counters.
    Increments commute, so the order in which tasks finish does not
    matter to the totals. *)
Definition apply_task (tr : list effect) (c : RunCounters) : RunCounters :=
  mkRunCounters (processed_count c + count ProcessedInc tr)
                (success_count c + count SuccessInc tr)
                (error_count c + count ErrorInc tr).

(** The run's counters once every launched task has been waited for. *)
Definition run_counters (env : Env) (obs : ChangeDetector.observers)
    (items : list WishlistItem) : RunCounters :=
  fold_left (fun c it => apply_task (trace (Scheduler.process_item env obs it)) c)
            items zero_counters.

(** [runOnce()] entered with the guard free, [items] being [repo.findAll()]. *)
Definition runOnce (env : Env) (obs : ChangeDetector.observers)
    (items : list WishlistItem) : Z :=
  match items with
  | [] => 0
  | _ => processed_count (run_counters env obs items)
  end.

(** Scheduler members [is_running_], [scrape_total_], [scrape_processed_],
    together with the counters of the run in progress, if any. *)
Record SchedState := mkSchedState {
  is_running : bool;
  scrape_total : Z;
  scrape_processed : Z;
  active : option RunCounters
}.

Definition init_state : SchedState := mkSchedState false 0 0 None.

Inductive CallResult :=
| Returned (n : Z)
| Started.

(** The entry of [runOnce()]: [is_running_.exchange(true)], then the
    empty-wishlist exit or the start of a run. *)
Definition runOnce_call (items : list WishlistItem) (s : SchedState)
    : CallResult * SchedState :=
  if is_running s then (Returned 0, s)
  else match items with
       | [] => (Returned 0, mkSchedState false (scrape_total s)
                                     (scrape_processed s) (active s))
       | _ => (Started, mkSchedState true (Z.of_nat (List.length items)) 0
                                     (Some zero_counters))
       end.

(** One task of the active run finishes after performing [tr]. *)
Definition task_done (tr : list effect) (s : SchedState) (c : RunCounters)
    : SchedState :=
  mkSchedState (is_running s) (scrape_total s)
               (scrape_processed s + count ScrapeProcessedInc tr)
               (Some (apply_task tr c)).

(** All futures waited: [is_running_ = false], return [processed_count]. *)
Definition run_end (s : SchedState) : SchedState :=
  mkSchedState false (scrape_total s) (scrape_processed s) None.

(** Any thread may call [runOnce] at any time; tasks of the active run
    finish one at a time; the run ends. *)
Inductive step : SchedState -> SchedState -> Prop :=
| step_call : forall items s r s',
    runOnce_call items s = (r, s') -> step s s'
| step_task : forall tr s c,
    active s = Some c -> step s (task_done tr s c)
| step_end : forall s c,
    active s = Some c -> step s (run_end s).

Inductive reachable : SchedState -> Prop :=
| reach_init : reachable init_state
| reach_step : forall s s', reachable s -> step s s' -> reachable s'.


(** C++ [int] arithmetic wraps modulo 2^32 (two's complement). *)
Definition wrap32 (z : Z) : Z := ((z + 2 ^ 31) mod 2 ^ 32) - 2 ^ 31.











End Run.

(* ------------------------------------------------------------------ *)
(** ** Concrete inputs (the scenarios of the specification) *)

Module Samples.

Definition item_url : string := "https://www.bol.com/nl/nl/p/dune-4k/1".

(** A wishlist row with both notification flags on. *)
Definition item (price threshold : float) (stock : bool) : WishlistItem :=
  mkWishlistItem 1 item_url "Dune" price threshold stock false "" ""
                 "bol.com" 0 true true false.

Definition snapshot (price : float) (stock : bool) : Product :=
  mkProduct item_url "Dune" price stock false "" "" 1 "bol.com".

(** Every collaborator succeeds except, when [save_ok] is false, the
    repository's [update]. *)
Definition env (p : Product) (save_ok : bool) : Env :=
  mkEnv 7 (fun _ => true) (fun _ => Scraped p) (fun _ => None) (fun _ => save_ok).

(** A configured notifier that delivers, and one whose [notify] throws. *)
Definition good_sink (n : nat) : Observer := mkObserver n true (fun _ => false).
Definition throwing_sink (n : nat) : Observer := mkObserver n true (fun _ => true).

Definition notified (tr : list effect) : list nat :=
  flat_map (fun e => match e with Notify n _ => [n] | _ => [] end) tr.

(** Scenario 1: threshold 35, 40 -> 30, in stock. *)
Definition old1 := item 40 35 true.
Definition new1 := Scheduler.merged_item old1 (snapshot 30 true).
(** Scenario 2: back in stock at an unchanged price. *)
Definition old2 := item 40 35 false.
Definition new2 := Scheduler.merged_item old2 (snapshot 40 true).
(** Scenario 3: 19.99 -> 21.50. *)
Definition old3 := item 19.99 10 true.
Definition new3 := Scheduler.merged_item old3 (snapshot 21.50 true).
(** Scenario 4: out of stock at an unchanged price. *)
Definition old4 := item 40 35 true.
Definition new4 := Scheduler.merged_item old4 (snapshot 40 false).

Definition sinks : ChangeDetector.observers :=
  Scheduler.registered [Some (good_sink 1); None; Some (mkObserver 3 false (fun _ => false));
                        Some (good_sink 2)].

End Samples.

(* ------------------------------------------------------------------ *)
(** ** Claims about the classification ([detectChanges]) *)

Module ClassifySpec.

(** The first-match precedence chain in the words of the specification:
    PriceDroppedBelowThreshold, else BackInStock, else PriceChanged
    (absolute difference above 0.01), else OutOfStock, else nothing. *)
Definition classify (old_item new_item : WishlistItem) : option ChangeType :=
  if notify_on_price_drop new_item && in_stock new_item &&
     PrimFloat.leb (current_price new_item) (desired_max_price new_item) &&
     PrimFloat.ltb (desired_max_price new_item) (current_price old_item)
  then Some PriceDroppedBelowThreshold
  else if notify_on_stock new_item && negb (in_stock old_item) && in_stock new_item
  then Some BackInStock
  else if PrimFloat.ltb 0.01
            (PrimFloat.abs (PrimFloat.sub (current_price old_item) (current_price new_item)))
  then Some PriceChanged
  else if in_stock old_item && negb (in_stock new_item)
  then Some OutOfStock
  else None.

Definition notifying (k : ChangeType) : bool :=
  match k with
  | PriceDroppedBelowThreshold | BackInStock => true
  | PriceChanged | OutOfStock => false
  end.

End ClassifySpec.

(* ------------------------------------------------------------------ *)
(** ** Named pieces of [process_item] and [addNotifier] *)

Module Views.

(** The image-cache step of [process_item]: when the snapshot has an
    image URL and [cacheImage] returns a path, [product.local_image_path]
    is set to it. *)
Definition with_cached_image (env : Env) (p : Product) : Product :=
  if String.eqb (p_image_url p) "" then p
  else match cache_image env (p_image_url p) with
       | Some path =>
           {| p_url := p_url p; p_title := p_title p; price := price p;
              p_in_stock := p_in_stock p; p_is_uhd_4k := p_is_uhd_4k p;
              p_image_url := p_image_url p; p_local_image_path := path;
              last_updated := last_updated p; p_source := p_source p |}
       | None => p
       end.

(** The identities of the non-null candidates that are configured, in
    the order they were offered to [addNotifier]. *)
Definition configured_ids (cands : list (option Observer)) : list nat :=
  flat_map (fun n => match n with
                     | Some o => if obs_configured o then [obs_id o] else []
                     | None => [] end) cands.

End Views.

(* ------------------------------------------------------------------ *)
(** ** [ConfigManager] ([src/src/infrastructure/config_manager.cpp]) and
    the settings API ([src/src/presentation/web_frontend.cpp]) *)

Module Config.

Local Open Scope Z_scope.

(** [isspace] in the C locale: space, [\t], [\n], [\v], [\f], [\r]. *)
Definition is_space (c : Ascii.ascii) : bool :=
  let n := Ascii.nat_of_ascii c in
  Nat.eqb n 32 || (Nat.leb 9 n && Nat.leb n 13).

Definition digit_of (c : Ascii.ascii) : option Z :=
  let n := Ascii.nat_of_ascii c in
  if Nat.leb 48 n && Nat.leb n 57 then Some (Z.of_nat n - 48) else None.

Fixpoint skip_space (s : string) : string :=
  match s with
  | String c r => if is_space c then skip_space r else s
  | EmptyString => s
  end.

(** The longest run of decimal digits: its value accumulated onto [acc],
    and how many digits it had. *)
Fixpoint read_digits (s : string) (acc : Z) (n : nat) : Z * nat :=
  match s with
  | String c r =>
      match digit_of c with
      | Some d => read_digits r (acc * 10 + d) (S n)
      | None => (acc, n)
      end
  | EmptyString => (acc, n)
  end.

(** [strtol(s, &end, 10)] on the exact integers: leading white space, an
    optional sign, then at least one digit; [None] when no digit was
    converted ([end == s]). *)
Definition strtol (s : string) : option Z :=
  let s := skip_space s in
  let '(neg, s) :=
    match s with
    | String c r =>
        if Nat.eqb (Ascii.nat_of_ascii c) 45 (* '-' *) then (true, r)
        else if Nat.eqb (Ascii.nat_of_ascii c) 43 (* '+' *) then (false, r)
        else (false, s)
    | EmptyString => (false, s)
    end in
  let '(v, n) := read_digits s 0 0 in
  if Nat.eqb n 0 then None else Some (if neg then - v else v).

Definition INT_MIN : Z := - 2 ^ 31.
Definition INT_MAX : Z := 2 ^ 31 - 1.

(** The range test of [std::stoi] (a value outside throws
    [std::out_of_range]). *)
Definition in_int_range (n : Z) : bool := (INT_MIN <=? n) && (n <=? INT_MAX).

(** [std::stoi]: [None] where it throws [std::invalid_argument] (nothing
    converted) or [std::out_of_range] (the value does not fit an [int];
    a value that does not fit a [long] is out of [int] range too). *)
Definition stoi (s : string) : option Z :=
  match strtol s with
  | Some v => if (INT_MIN <=? v) && (v <=? INT_MAX) then Some v else None
  | None => None
  end.

Definition digit_char (d : Z) : Ascii.ascii := Ascii.ascii_of_nat (48 + Z.to_nat d).

(** The decimal digits of [n >= 0], most significant first, before [acc]. *)
Fixpoint dec_digits (fuel : nat) (n : Z) (acc : string) : string :=
  match fuel with
  | O => acc
  | S f =>
      let acc' := String (digit_char (n mod 10)) acc in
      if n <? 10 then acc' else dec_digits f (n / 10) acc'
  end.

(** [std::to_string] of an [int] or a [long long]: 20 digits cover every
    64-bit value. *)
Definition to_string (n : Z) : string :=
  if n <? 0 then String (Ascii.ascii_of_nat 45) (dec_digits 20 (- n) "")
  else dec_digits 20 n "".

(** The in-memory [config_] ([std::unordered_map]) and the SQLite table
    [config] (primary key [key]), both as maps from keys to values. *)
Definition table := list (string * string).

Fixpoint lookup (k : string) (t : table) : option string :=
  match t with
  | [] => None
  | (k', v) :: t' => if String.eqb k' k then Some v else lookup k t'
  end.

(** [t[k] = v], and [INSERT OR REPLACE]. *)
Definition put (k v : string) (t : table) : table :=
  (k, v) :: filter (fun kv => negb (String.eqb (fst kv) k)) t.

Record Store := mkStore {
  cache : table;
  db : table
}.

(** [get(key)] *)
Definition get (s : Store) (k : string) : option string := lookup k (cache s).

(** [get(key, default_value)] *)
Definition get_default (s : Store) (k d : string) : string :=
  match get s k with Some v => v | None => d end.

(** [getInt(key, default_value)]: the value and the warnings logged. *)
Definition getInt (s : Store) (k : string) (d : Z) : Z * list string :=
  match get s k with
  | None => (d, [])
  | Some v =>
      match stoi v with
      | Some n => (n, [])
      | None => (d, [("Failed to parse int config '" ++ k ++ "': " ++ v)%string])
      end
  end.

(** [getBool(key, default_value)] *)
Definition getBool (s : Store) (k : string) (d : bool) : bool :=
  match get s k with
  | None => d
  | Some str => String.eqb str "1" || String.eqb str "true" ||
                String.eqb str "yes" || String.eqb str "on"
  end.

(** [set(key, value)]: the cache is updated first; the database write
    either succeeds ([None]) or fails with SQLite's message, which is
    logged.  Returns the new store and the errors logged. *)
Definition set (db_result : option string) (k v : string) (s : Store)
    : Store * list string :=
  match db_result with
  | None => (mkStore (put k v (cache s)) (put k v (db s)), [])
  | Some msg => (mkStore (put k v (cache s)) (db s),
                 [("Failed to set config '" ++ k ++ "': " ++ msg)%string])
  end.

(** [set(key, int)] and [set(key, bool)] *)
Definition set_int (db_result : option string) (k : string) (n : Z) (s : Store) :=
  set db_result k (to_string n) s.

Definition set_bool (db_result : option string) (k : string) (b : bool) (s : Store) :=
  set db_result k (if b then "1" else "0") s.

(** [reload()]: [config_] is cleared and refilled from the table. *)
Definition reload (s : Store) : Store := mkStore (db s) (db s).

End Config.

Module Settings.

Local Open Scope Z_scope.

(** The fields of a [PUT /api/settings] body, present or not; numbers as
    [crow::json::rvalue::i()] returns them ([int64_t]). *)
Record SettingsBody := mkSettingsBody {
  b_scrape_delay_seconds : option Z;
  b_discord_webhook_url : option string;
  b_smtp_server : option string;
  b_smtp_port : option Z;
  b_smtp_user : option string;
  b_smtp_pass : option string;
  b_smtp_from : option string;
  b_smtp_to : option string
}.

Record Response := mkResponse {
  code : Z;
  text : string
}.

(** [if (body.has(k)) config.set(k, v);] with the SQLite outcome of the
    write of each key given by [dbw]; the errors logged are accumulated. *)
Definition set_opt (dbw : string -> option string) (k : string) (v : option string)
    (st : Config.Store * list string) : Config.Store * list string :=
  match v with
  | None => st
  | Some v => let (s', l) := Config.set (dbw k) k v (fst st) in (s', snd st ++ l)
  end.

(** The [PUT /api/settings] handler; [None] is a body that is not JSON. *)
Definition put_settings (dbw : string -> option string) (body : option SettingsBody)
    (s : Config.Store) : Response * (Config.Store * list string) :=
  match body with
  | None => (mkResponse 400 "Invalid JSON", (s, []))
  | Some b =>
      let st := set_opt dbw "scrape_delay_seconds"
                  (option_map Config.to_string (b_scrape_delay_seconds b)) (s, []) in
      let st := set_opt dbw "discord_webhook_url" (b_discord_webhook_url b) st in
      let st := set_opt dbw "smtp_server" (b_smtp_server b) st in
      let checked :=
        match b_smtp_port b with
        | None => Some st
        | Some p =>
            let smtp_port := Run.wrap32 p in      (* int smtp_port = ...i(); *)
            if (smtp_port <? 1) || (65535 <? smtp_port) then None
            else Some (set_opt dbw "smtp_port" (Some (Config.to_string smtp_port)) st)
        end in
      match checked with
      | None => (mkResponse 400 "Invalid SMTP port", st)
      | Some st =>
          let st := set_opt dbw "smtp_user" (b_smtp_user b) st in
          let st := set_opt dbw "smtp_pass" (b_smtp_pass b) st in
          let st := set_opt dbw "smtp_from" (b_smtp_from b) st in
          let st := set_opt dbw "smtp_to" (b_smtp_to b) st in
          (mkResponse 200 "Settings updated", st)
      end
  end.

(** [delay_seconds_] as the [Scheduler] constructor reads it, which is
    also the value [GET /api/settings] reports. *)
Definition scheduler_delay_seconds (s : Config.Store) : Z :=
  fst (Config.getInt s "scrape_delay_seconds" 8).

(** A body carrying a delay, a Discord webhook, an SMTP server and an
    SMTP port. *)
Definition sample_body (delay port : Z) : SettingsBody :=
  mkSettingsBody (Some delay) (Some "https://discord.example/hook")
    (Some "smtp.example.org") (Some port) None None None None.

End Settings.

(* ------------------------------------------------------------------ *)
(** ** [Scheduler::scrapeReleaseCalendar] ([src/src/application/scheduler.cpp]) *)

Module Calendar.

Local Open Scope Z_scope.

(** [std::chrono::system_clock] time points and durations, as libstdc++
    has them: 64-bit counts of nanoseconds, whose signed arithmetic wraps
    modulo 2^64 (two's complement). *)
Definition wrap64 (z : Z) : Z := ((z + 2 ^ 63) mod 2 ^ 64) - 2 ^ 63.

(** Nanoseconds per hour, the factor of [hours] to [nanoseconds]. *)
Definition hour_ns : Z := 3600000000000.

(** [now + std::chrono::hours(24) * static_cast<hours::rep>(days_ahead)]:
    the [hours] count [24 * days_ahead], converted to nanoseconds, added to
    [now]. *)
Definition cutoff_date (now days_ahead : Z) : Z :=
  wrap64 (now + wrap64 (wrap64 (24 * days_ahead) * hour_ns)).

(** [struct ReleaseCalendarItem] *)
Record ReleaseCalendarItem := mkRelease {
  r_id : Z;
  r_title : string;
  release_date : Z;
  format : string;
  studio : string;
  r_image_url : string;
  r_local_image_path : string;
  product_url : string;
  r_is_uhd_4k : bool;
  is_preorder : bool;
  r_price : float;
  notes : string;
  created_at : Z;
  r_last_updated : Z
}.

(** [release.release_date >= now && release.release_date <= cutoff_date] *)
Definition in_window (now cutoff : Z) (r : ReleaseCalendarItem) : bool :=
  (now <=? release_date r) && (release_date r <=? cutoff).

(** What [BluRayComScraper::scrapeReleaseCalendar(url)] does. *)
Inductive Fetch :=
| Fetched (releases : list ReleaseCalendarItem)
| FetchThrew (what : string).

(** The collaborators: the clock ([clock k] is the value of the [k]-th
    call of [system_clock::now()]), the calendar scraper, the image cache
    and [SqliteReleaseCalendarRepository] over a database state [R]. *)
Record CalEnv (R : Type) := mkCalEnv {
  clock : nat -> Z;
  fetch : string -> Fetch;
  cal_cache_image : string -> option string;
  removeOlderThan : Z -> R -> R;
  findByUrl : string -> R -> option ReleaseCalendarItem;
  repo_update_release : ReleaseCalendarItem -> R -> bool * R;
  repo_add_release : ReleaseCalendarItem -> R -> Z * R
}.
Arguments mkCalEnv {R}.
Arguments clock {R}.
Arguments fetch {R}.
Arguments cal_cache_image {R}.
Arguments removeOlderThan {R}.
Arguments findByUrl {R}.
Arguments repo_update_release {R}.
Arguments repo_add_release {R}.

(** Warnings and errors logged (the [info] lines are left out) and the
    repository calls, in program order. *)
Inductive cal_effect :=
| CWarning (msg : string)
| CError (msg : string)
| CRemoveOlderThan (t : Z)
| CFind (url : string) (found : option ReleaseCalendarItem)
| CUpdate (it : ReleaseCalendarItem) (ok : bool)
| CAdd (it : ReleaseCalendarItem) (new_id : Z).

Section WithRepo.

Context {R : Type} (env : CalEnv R).

(** The image step of the filter loop. *)
Definition cache_release (r : ReleaseCalendarItem) : ReleaseCalendarItem :=
  if String.eqb (r_image_url r) "" then r
  else match cal_cache_image env (r_image_url r) with
       | Some path =>
           {| r_id := r_id r; r_title := r_title r; release_date := release_date r;
              format := format r; studio := studio r; r_image_url := r_image_url r;
              r_local_image_path := path; product_url := product_url r;
              r_is_uhd_4k := r_is_uhd_4k r; is_preorder := is_preorder r;
              r_price := r_price r; notes := notes r; created_at := created_at r;
              r_last_updated := r_last_updated r |}
       | None => r
       end.

(** The [updated] copy of an existing row. *)
Definition updated_release (existing release : ReleaseCalendarItem) (t : Z)
    : ReleaseCalendarItem :=
  {| r_id := r_id existing; r_title := r_title release;
     release_date := release_date release; format := format release;
     studio := studio release; r_image_url := r_image_url release;
     r_local_image_path := r_local_image_path release;
     product_url := product_url existing; r_is_uhd_4k := r_is_uhd_4k release;
     is_preorder := is_preorder release; r_price := r_price release;
     notes := notes existing; created_at := created_at existing;
     r_last_updated := t |}.

(** The database loop over [filtered_releases]; the state is the
    database and the number of clock reads so far. *)
Fixpoint persist (rs : list ReleaseCalendarItem) (db : R) (reads : nat)
    : list cal_effect * R :=
  match rs with
  | [] => ([], db)
  | r :: rest =>
      let '(tr1, db1, reads1) :=
        let add db :=
          let (new_id, db') := repo_add_release env r db in
          ([CAdd r new_id], db', reads) in
        if negb (String.eqb (product_url r) "") then
          match findByUrl env (product_url r) db with
          | Some existing =>
              let updated := updated_release existing r (clock env reads) in
              let (ok, db') := repo_update_release env updated db in
              ([CFind (product_url r) (Some existing); CUpdate updated ok], db', S reads)
          | None =>
              let '(tr, db', reads') := add db in
              (CFind (product_url r) None :: tr, db', reads')
          end
        else add db in
      let (tr2, db2) := persist rest db1 reads1 in
      (tr1 ++ tr2, db2)
  end.

(** [scrapeReleaseCalendar()]: the returned count, the effects and the
    final database. *)
Definition scrapeReleaseCalendar (cfg : Config.Store) (db : R)
    : Z * list cal_effect * R :=
  let (enabled, w1) := Config.getInt cfg "bluray_calendar_enabled" 1 in
  if enabled =? 0 then (0, map CWarning w1, db)
  else
    let calendar_url := Config.get_default cfg "bluray_calendar_url"
                          "https://www.blu-ray.com/movies/releasedates.php" in
    let (days_ahead, w2) := Config.getInt cfg "bluray_calendar_days_ahead" 90 in
    let w := map CWarning (w1 ++ w2) in
    match fetch env calendar_url with
    | FetchThrew what =>
        (0, w ++ [CError ("Failed to scrape release calendar: " ++ what)%string], db)
    | Fetched [] => (0, w ++ [CWarning "No releases found in calendar"], db)
    | Fetched releases =>
        let now := clock env 0 in
        let cutoff := cutoff_date now days_ahead in
        let filtered := map cache_release (filter (in_window now cutoff) releases) in
        let db1 := removeOlderThan env now db in
        let (tr, db2) := persist filtered db1 1 in
        (Run.wrap32 (Z.of_nat (List.length filtered)),
         w ++ CRemoveOlderThan now :: tr, db2)
    end.

End WithRepo.

(** The rows a trace writes, in order. *)
Definition written (tr : list cal_effect) : list ReleaseCalendarItem :=
  flat_map (fun e => match e with
                     | CAdd r _ | CUpdate r _ => [r]
                     | _ => [] end) tr.

(** Whether an effect is a repository call rather than a log line. *)
Definition is_repo_call (e : cal_effect) : bool :=
  match e with CWarning _ | CError _ => false | _ => true end.

(** The fields [scrapeReleaseCalendar] passes on from each scraped release
    to the row it writes, whether added or updated. *)
Definition title_date (r : ReleaseCalendarItem) : string * Z := (r_title r, release_date r).

(** Sample data: a clock at 2025-10-15 00:00 UTC, a release ten days ahead,
    one from yesterday, and the stored row with the first one's URL. *)
Definition day_ns : Z := 86400000000000.
Definition sample_now : Z := 1760486400000000000.
Definition sample_release : ReleaseCalendarItem :=
  mkRelease 0 "Dune: Part Two" (sample_now + 10 * day_ns) "4K UHD" "Warner" ""
    "" "https://www.blu-ray.com/movies/dune-part-two/1" true true 29.99%float "" 0 0.
Definition sample_past_release : ReleaseCalendarItem :=
  mkRelease 0 "Heat" (sample_now - day_ns) "Blu-ray" "Fox" "" "" "" false false
    14.99%float "" 0 0.
Definition sample_row : ReleaseCalendarItem :=
  mkRelease 7 "Dune 2" sample_now "Blu-ray" "Warner" "" ""
    "https://www.blu-ray.com/movies/dune-part-two/1" false true 34.99%float "watch"
    1700000000000000000 1700000000000000000.
Definition sample_env (f : Fetch) : CalEnv unit :=
  mkCalEnv (fun k => sample_now + Z.of_nat k) (fun _ => f) (fun _ => None)
    (fun _ db => db)
    (fun url _ => if String.eqb url (product_url sample_row) then Some sample_row else None)
    (fun _ db => (true, db)) (fun _ db => (8, db)).
Definition sample_fetch : Fetch := Fetched [sample_release; sample_past_release].

End Calendar.

(* ------------------------------------------------------------------ *)
(** ** [bluray::infrastructure::validation]
    ([src/src/infrastructure/input_validation.hpp]) *)

Module Validation.

(** A [char] by its code ([static_cast<unsigned char>]). *)
Definition code (c : Ascii.ascii) : nat := Ascii.nat_of_ascii c.

Definition chr (n : nat) : Ascii.ascii := Ascii.ascii_of_nat n.

Fixpoint string_forall (p : Ascii.ascii -> bool) (s : string) : bool :=
  match s with
  | EmptyString => true
  | String c r => p c && string_forall p r
  end.

Fixpoint string_map (f : Ascii.ascii -> Ascii.ascii) (s : string) : string :=
  match s with
  | EmptyString => EmptyString
  | String c r => String (f c) (string_map f r)
  end.

(** [std::tolower] in the "C" locale. *)
Definition tolower (c : Ascii.ascii) : Ascii.ascii :=
  if (65 <=? code c)%nat && (code c <=? 90)%nat then chr (code c + 32) else c.

(** [toLower(str)] *)
Definition toLower (s : string) : string := string_map tolower s.

(** [isValidValue(value, whitelist)] *)
Definition isValidValue (value : string) (whitelist : list string) : bool :=
  existsb (fun allowed => String.eqb (toLower value) allowed) whitelist.

Definition VALID_SORT_FIELDS : list string := ["price"; "title"; "date"].
Definition VALID_SORT_ORDERS : list string := ["asc"; "desc"].
Definition VALID_STOCK_FILTERS : list string := ["in_stock"; "out_of_stock"].

(** The [char] appended for [c] by [sanitizeForLog]: newline, carriage
    return, tab and every code below 32 become a space. *)
Definition log_char (c : Ascii.ascii) : Ascii.ascii :=
  if (code c =? 10)%nat || (code c =? 13)%nat || (code c =? 9)%nat || (code c <? 32)%nat
  then chr 32 else c.

(** The loop of [sanitizeForLog]: [i] runs over [str] while
    [result.size() < max_length]. *)
Fixpoint sanitize_loop (str : string) (max_length : nat) (result : string) : string :=
  match str with
  | EmptyString => result
  | String c rest =>
      if (String.length result <? max_length)%nat
      then sanitize_loop rest max_length (result ++ String (log_char c) EmptyString)
      else result
  end.

(** [sanitizeForLog(str, max_length)] *)
Definition sanitizeForLog (str : string) (max_length : nat) : string :=
  sanitize_loop str max_length EmptyString ++
  (if (max_length <? String.length str)%nat then "..." else EmptyString).

(** The replacement of one [char] in [escapeHtml]. *)
Definition esc_html (c : Ascii.ascii) : string :=
  if (code c =? 38)%nat then "&amp;"
  else if (code c =? 60)%nat then "&lt;"
  else if (code c =? 62)%nat then "&gt;"
  else if (code c =? 34)%nat then "&quot;"
  else if (code c =? 39)%nat then "&#39;"
  else String c EmptyString.

(** [escapeHtml(str)] *)
Fixpoint escapeHtml (s : string) : string :=
  match s with
  | EmptyString => EmptyString
  | String c r => esc_html c ++ escapeHtml r
  end.

(** The replacement of one [char] in [escapeJs]; Rocq string literals have
    no escapes, so ["\\"] is two backslashes and ["\n"] a backslash and an
    [n]. *)
Definition esc_js (c : Ascii.ascii) : string :=
  if (code c =? 92)%nat then "\\"
  else if (code c =? 39)%nat then "\'"
  else if (code c =? 34)%nat then String (chr 92) (String (chr 34) EmptyString)
  else if (code c =? 10)%nat then "\n"
  else if (code c =? 13)%nat then "\r"
  else if (code c =? 9)%nat then "\t"
  else if (code c =? 60)%nat then "\x3C"
  else if (code c =? 62)%nat then "\x3E"
  else String c EmptyString.

(** [escapeJs(str)] *)
Fixpoint escapeJs (s : string) : string :=
  match s with
  | EmptyString => EmptyString
  | String c r => esc_js c ++ escapeJs r
  end.

(** [std::isxdigit] *)
Definition is_xdigit (c : Ascii.ascii) : bool :=
  (((48 <=? code c) && (code c <=? 57)) || ((65 <=? code c) && (code c <=? 70)) ||
  ((97 <=? code c) && (code c <=? 102)))%nat.

(** [isValidHexColor(color)] *)
Definition isValidHexColor (color : string) : bool :=
  match color with
  | EmptyString => false
  | String c rest =>
      (code c =? 35)%nat &&
      (let len := String.length color in (len =? 4) || (len =? 7) || (len =? 9))%nat &&
      string_forall is_xdigit rest
  end.

(** [sanitizeColor(color, default_color)] *)
Definition sanitizeColor (color default_color : string) : string :=
  if isValidHexColor color then color else default_color.

(** The body of a JavaScript string literal delimited by the character of
    code [q], as a JavaScript lexer reads it: a backslash escapes the next
    character, and an unescaped delimiter or line break ends the literal
    (or is a syntax error). It returns whether all of [s] stays inside the
    literal. *)
Fixpoint js_literal_body (q : nat) (s : string) : bool :=
  match s with
  | EmptyString => true
  | String c r =>
      if (code c =? 92)%nat then
        match r with
        | EmptyString => false
        | String _ r' => js_literal_body q r'
        end
      else if (code c =? q)%nat || (code c =? 10)%nat || (code c =? 13)%nat then false
      else js_literal_body q r
  end.

End Validation.

(* ------------------------------------------------------------------ *)
(** ** [SqliteWishlistRepository::findAll(const PaginationParams &)]
    ([src/src/infrastructure/repositories/wishlist_repository.cpp]) and
    [PaginatedResult] ([src/src/domain/models.hpp]) *)

Module WishlistQuery.

Import Validation.
Local Open Scope Z_scope.

(** [struct PaginationParams] *)
Record PaginationParams := mkParams {
  page : Z;
  page_size : Z;
  sort_by : string;
  sort_order : string;
  filter_stock : string;
  filter_source : string;
  search_query : string
}.

Definition kColumnList : string :=
  ("id, url, title, title_locked, current_price, desired_max_price, in_stock, " ++
  "is_uhd_4k, " ++
  "image_url, local_image_path, source, notify_on_price_drop, " ++
  "notify_on_stock, " ++
  "created_at, last_checked")%string.

(** The stock filter: the conditions pushed and the warnings logged. *)
Definition stock_conditions (p : PaginationParams) : list string * list string :=
  if String.eqb (filter_stock p) "" then ([], [])
  else if negb (isValidValue (filter_stock p) VALID_STOCK_FILTERS) then
    ([], [("Invalid filter_stock value: " ++ filter_stock p)%string])
  else if String.eqb (filter_stock p) "in_stock" then (["in_stock = 1"], [])
  else if String.eqb (filter_stock p) "out_of_stock" then (["in_stock = 0"], [])
  else ([], []).

(** All conditions, in the order they are pushed. *)
Definition conditions (p : PaginationParams) : list string :=
  fst (stock_conditions p) ++
  (if String.eqb (filter_source p) "" then [] else ["source = ?"]) ++
  (if String.eqb (search_query p) "" then [] else ["title LIKE ?"]).

(** [bind_params] *)
Definition bind_params (p : PaginationParams) : list string :=
  (if String.eqb (filter_source p) "" then [] else [filter_source p]) ++
  (if String.eqb (search_query p) "" then [] else [("%" ++ search_query p ++ "%")%string]).

(** The sort clause and the warnings logged. *)
Definition order_clause (p : PaginationParams) : string * list string :=
  if String.eqb (sort_by p) "" then ("ORDER BY created_at DESC", [])
  else if negb (isValidValue (sort_by p) VALID_SORT_FIELDS) then
    ("ORDER BY created_at DESC", [("Invalid sort_by value: " ++ sort_by p ++ ", using default")%string])
  else
    let '(direction, w) :=
      if String.eqb (sort_order p) "" then ("DESC", [])
      else if negb (isValidValue (sort_order p) VALID_SORT_ORDERS) then
        ("DESC", [("Invalid sort_order value: " ++ sort_order p ++ ", using DESC")%string])
      else ((if String.eqb (sort_order p) "desc" then "DESC" else "ASC"), []) in
    ((if String.eqb (sort_by p) "price" then ("ORDER BY current_price " ++ direction)%string
      else if String.eqb (sort_by p) "title" then ("ORDER BY title " ++ direction)%string
      else if String.eqb (sort_by p) "date" then ("ORDER BY created_at " ++ direction)%string
      else "ORDER BY created_at DESC"), w).

(** [where_clause] *)
Definition where_clause (conds : list string) : string :=
  match conds with
  | [] => ""
  | c :: cs => fold_left (fun acc c => acc ++ " AND " ++ c)%string cs ("WHERE " ++ c)%string
  end.

Definition count_query (p : PaginationParams) : string :=
  ("SELECT COUNT(*) FROM wishlist " ++ where_clause (conditions p))%string.

(** [fmt::format("SELECT {} FROM wishlist {} {} LIMIT ? OFFSET ?", ...)] *)
Definition page_query (p : PaginationParams) : string :=
  ("SELECT " ++ kColumnList ++ " FROM wishlist " ++ where_clause (conditions p) ++ " " ++
  fst (order_clause p) ++ " LIMIT ? OFFSET ?")%string.

(** The warnings [findAll] logs, in order. *)
Definition findAll_warnings (p : PaginationParams) : list string :=
  snd (stock_conditions p) ++ snd (order_clause p).

(** [struct PaginatedResult] (the fields the page arithmetic reads). *)
Record PaginatedResult := mkResult {
  total_count : Z;
  res_page : Z;
  res_page_size : Z
}.

(** [total_pages()]: [int] arithmetic, [/] truncating toward zero. *)
Definition total_pages (r : PaginatedResult) : Z :=
  if res_page_size r =? 0 then 1
  else Z.quot (Run.wrap32 (total_count r + res_page_size r - 1)) (res_page_size r).

(** [has_next()] *)
Definition has_next (r : PaginatedResult) : bool := res_page r <? total_pages r.

(** [has_previous()] *)
Definition has_previous (r : PaginatedResult) : bool := 1 <? res_page r.

End WishlistQuery.

Section MonadFacts.

Lemma trace_bind {A B} (m : M A) (k : A -> M B) :
  trace (bind m k) =
  trace m ++ match result m with Normal a => trace (k a) | Raised => [] end.
Proof.
  destruct m as [tr [a|]]; unfold bind, trace, result; simpl.
  - destruct (k a); reflexivity.
  - rewrite app_nil_r; reflexivity.
Qed.

Lemma result_bind {A B} (m : M A) (k : A -> M B) :
  result (bind m k) =
  match result m with Normal a => result (k a) | Raised => Raised end.
Proof.
  destruct m as [tr [a|]]; unfold bind, result; simpl; [destruct (k a)|]; reflexivity.
Qed.

End MonadFacts.

(** Every effect of [notifyObservers] is a [Notify] of the event. *)
Lemma notifyObservers_only_notify obs ev e :
  In e (trace (ChangeDetector.notifyObservers obs ev)) ->
  exists n, e = Notify n ev.
Proof.
  induction obs as [|[o|] rest IH]; simpl.
  - contradiction.
  - destruct (ChangeDetector.notifyObservers rest ev) as [tr r] eqn:E.
    unfold ChangeDetector.onChangeDetected, tell, raise, ret, bind, trace in *; simpl.
    destruct (obs_throws o ev); simpl.
    + intros [<-|[]]; eauto.
    + simpl in IH. intros [<-|H]; eauto.
  - exact IH.
Qed.

(** [notifyObservers] returns normally or raises; its value is [tt]. *)
Lemma notifyObservers_shape obs ev :
  exists tr, ChangeDetector.notifyObservers obs ev = (tr, Normal tt) \/
             ChangeDetector.notifyObservers obs ev = (tr, Raised).
Proof.
  destruct (ChangeDetector.notifyObservers obs ev) as [tr [[]|]]; eauto.
Qed.

(** ** C1 *)

(** C1: [detectChanges] returns at most one event, and its kind is the
    first match of the precedence chain PriceDroppedBelowThreshold,
    BackInStock, PriceChanged, OutOfStock; when the call does not return
    (a notifier threw), the chain had selected a notifying kind. *)
Theorem detectChanges_at_most_one_first_match env obs old_item new_item :
  match result (ChangeDetector.detectChanges env obs old_item new_item) with
  | Normal evs =>
      (List.length evs <= 1)%nat /\
      map type evs = match ClassifySpec.classify old_item new_item with
                     | Some k => [k] | None => [] end
  | Raised =>
      ClassifySpec.classify old_item new_item = Some PriceDroppedBelowThreshold \/
      ClassifySpec.classify old_item new_item = Some BackInStock
  end.
Proof.
  unfold ChangeDetector.detectChanges, ClassifySpec.classify, ChangeDetector.eps.
  destruct (notify_on_price_drop new_item && in_stock new_item &&
            PrimFloat.leb (current_price new_item) (desired_max_price new_item) &&
            PrimFloat.ltb (desired_max_price new_item) (current_price old_item)).
  { destruct (notifyObservers_shape obs
      (mkChangeEvent PriceDroppedBelowThreshold new_item (Some (current_price old_item))
         (Some (current_price new_item)) None None (now env))) as [tr [E|E]];
      rewrite E; simpl; auto. }
  destruct (notify_on_stock new_item && negb (in_stock old_item) && in_stock new_item).
  { destruct (notifyObservers_shape obs
      (mkChangeEvent BackInStock new_item None None (Some (in_stock old_item))
         (Some (in_stock new_item)) (now env))) as [tr [E|E]];
      rewrite E; simpl; auto. }
  destruct (PrimFloat.ltb 0.01 _); [simpl; auto|].
  destruct (in_stock old_item && negb (in_stock new_item)); simpl; auto.
Qed.

(** ** Notification fan-out *)

(** The identities of the non-null observers, in list order. *)
Definition observer_ids (obs : ChangeDetector.observers) : list nat :=
  flat_map (fun o => match o with Some o => [obs_id o] | None => [] end) obs.

Lemma notified_app tr1 tr2 :
  Samples.notified (tr1 ++ tr2) = Samples.notified tr1 ++ Samples.notified tr2.
Proof. unfold Samples.notified. apply flat_map_app. Qed.

(** With no throwing observer, [notifyObservers] calls every non-null
    observer once, in list order, and returns. *)
Lemma notifyObservers_all obs ev :
  (forall o, In (Some o) obs -> obs_throws o ev = false) ->
  ChangeDetector.notifyObservers obs ev =
    (map (fun n => Notify n ev) (observer_ids obs), Normal tt).
Proof.
  induction obs as [|[o|] rest IH]; intros Hno; simpl.
  - reflexivity.
  - unfold ChangeDetector.onChangeDetected.
    rewrite (Hno o (or_introl eq_refl)).
    rewrite IH by (intros o' Ho'; apply Hno; right; exact Ho').
    reflexivity.
  - apply IH. intros o' Ho'; apply Hno; right; exact Ho'.
Qed.

Lemma registered_fold cands acc :
  fold_left (fun obs n => Scheduler.addNotifier n obs) cands acc =
  acc ++ flat_map (fun n => match n with
                            | Some o => if obs_configured o then [Some o] else []
                            | None => [] end) cands.
Proof.
  revert acc; induction cands as [|[o|] rest IH]; intros acc; simpl.
  - rewrite app_nil_r; reflexivity.
  - rewrite IH. unfold Scheduler.addNotifier, ChangeDetector.addObserver.
    destruct (obs_configured o); simpl; rewrite <- ?app_assoc; reflexivity.
  - rewrite IH; reflexivity.
Qed.

(** [addNotifier] keeps exactly the non-null configured notifiers, in the
    order they were added. *)
Lemma registered_configured cands :
  Scheduler.registered cands =
  flat_map (fun n => match n with
                     | Some o => if obs_configured o then [Some o] else []
                     | None => [] end) cands.
Proof. unfold Scheduler.registered. rewrite registered_fold. reflexivity. Qed.

(** What the fan-out does hold: the informational kinds notify nobody,
    and the notifying kinds reach every registered observer in order as
    long as none of them throws. *)
Lemma detectChanges_fanout env obs old_item new_item :
  (match ClassifySpec.classify old_item new_item with
   | Some k => ClassifySpec.notifying k = false
   | None => True end ->
   Samples.notified (trace (ChangeDetector.detectChanges env obs old_item new_item)) = []) /\
  ((forall o e, In (Some o) obs -> obs_throws o e = false) ->
   forall k, ClassifySpec.classify old_item new_item = Some k ->
   ClassifySpec.notifying k = true ->
   Samples.notified (trace (ChangeDetector.detectChanges env obs old_item new_item)) =
   observer_ids obs).
Proof.
  assert (Hids : forall ev, Samples.notified (map (fun n => Notify n ev) (observer_ids obs))
                            = observer_ids obs).
  { intros ev. unfold Samples.notified. induction (observer_ids obs); simpl; congruence. }
  unfold ChangeDetector.detectChanges, ClassifySpec.classify, ChangeDetector.eps.
  destruct (notify_on_price_drop new_item && in_stock new_item &&
            PrimFloat.leb (current_price new_item) (desired_max_price new_item) &&
            PrimFloat.ltb (desired_max_price new_item) (current_price old_item)).
  { split; [simpl; discriminate|].
    intros Hno k _ _. rewrite notifyObservers_all by (intros o Ho; apply (Hno o _ Ho)).
    simpl. rewrite notified_app, Hids. simpl. apply app_nil_r. }
  destruct (notify_on_stock new_item && negb (in_stock old_item) && in_stock new_item).
  { split; [simpl; discriminate|].
    intros Hno k _ _. rewrite notifyObservers_all by (intros o Ho; apply (Hno o _ Ho)).
    simpl. rewrite notified_app, Hids. simpl. apply app_nil_r. }
  destruct (PrimFloat.ltb 0.01 _).
  { split; [reflexivity|]. intros _ k Hk; injection Hk as <-; discriminate. }
  destruct (in_stock old_item && negb (in_stock new_item)).
  { split; [reflexivity|]. intros _ k Hk; injection Hk as <-; discriminate. }
  split; [reflexivity|discriminate].
Qed.

(** ** C4 *)

(** C4: the fan-out of [PriceDroppedBelowThreshold] does not reach every
    registered, configured notifier: with notifiers [1; 2] registered and
    notifier 1 throwing, scenario 1 (threshold 35, price 40 -> 30, in
    stock) invokes [notify] on notifier 1 only, and [detectChanges] does
    not return. *)
Theorem detectChanges_throwing_sink_skips_later_sinks :
  let obs := Scheduler.registered [Some (Samples.throwing_sink 1); Some (Samples.good_sink 2)] in
  let m := ChangeDetector.detectChanges (Samples.env (Samples.snapshot 30 true) true)
             obs Samples.old1 Samples.new1 in
  ClassifySpec.classify Samples.old1 Samples.new1 = Some PriceDroppedBelowThreshold /\
  observer_ids obs = [1; 2]%nat /\
  Samples.notified (trace m) = [1%nat] /\
  result m = Raised.
Proof. vm_compute. repeat split. Qed.

(** ** C5 *)

(** C5: a throwing notifier is not isolated.  In the per-item task of
    scenario 1 with notifiers [1; 2] registered and notifier 1 throwing,
    notifier 2 is never invoked, and the task ends at the throw: no
    [repo.update], no history entry, and none of the success, failure or
    processed counters is incremented. *)
Theorem process_item_throwing_sink_aborts_task :
  let obs := Scheduler.registered [Some (Samples.throwing_sink 1); Some (Samples.good_sink 2)] in
  let m := Scheduler.process_item (Samples.env (Samples.snapshot 30 true) true)
             obs Samples.old1 in
  Samples.notified (trace m) = [1%nat] /\
  result m = Raised /\
  (forall u ok, ~ In (RepoUpdate u ok) (trace m)) /\
  (forall i p s, ~ In (HistoryAdd i p s) (trace m)) /\
  Run.count SuccessInc (trace m) = 0%Z /\
  Run.count ErrorInc (trace m) = 0%Z /\
  Run.count ProcessedInc (trace m) = 0%Z.
Proof.
  vm_compute.
  repeat split; try reflexivity; intros *; intros H;
    repeat (destruct H as [H|H]; [discriminate|]); exact H.
Qed.

(** ** Shape of [updateWishlistItem] *)

Definition is_notify (e : effect) : bool :=
  match e with Notify _ _ => true | _ => false end.
Definition is_history (e : effect) : bool :=
  match e with HistoryAdd _ _ _ => true | _ => false end.
Definition is_repo_update (e : effect) : bool :=
  match e with RepoUpdate _ _ => true | _ => false end.
Definition is_counter (e : effect) : bool :=
  match e with SuccessInc | ErrorInc | ProcessedInc | ScrapeProcessedInc => true | _ => false end.

Lemma log_changes_effects cs e :
  In e (trace (Scheduler.log_changes cs)) -> exists c, e = LogChange c.
Proof.
  induction cs as [|c cs IH]; simpl; [contradiction|].
  destruct (Scheduler.log_changes cs) as [tr r] eqn:E; simpl in *.
  intros [<-|H]; eauto.
Qed.

Lemma detectChanges_only_notify env obs old_item new_item e :
  In e (trace (ChangeDetector.detectChanges env obs old_item new_item)) ->
  is_notify e = true.
Proof.
  unfold ChangeDetector.detectChanges.
  destruct (_ && _ && _ && _).
  { rewrite trace_bind. intros H; apply in_app_or in H as [H|H].
    - apply notifyObservers_only_notify in H as [n ->]; reflexivity.
    - destruct (result _) as [[]|]; simpl in H; contradiction. }
  destruct (_ && _ && _).
  { rewrite trace_bind. intros H; apply in_app_or in H as [H|H].
    - apply notifyObservers_only_notify in H as [n ->]; reflexivity.
    - destruct (result _) as [[]|]; simpl in H; contradiction. }
  destruct (PrimFloat.ltb _ _); [simpl; contradiction|].
  destruct (_ && _); simpl; contradiction.
Qed.

(** [updateWishlistItem] performs, in order: the zero-price warning if any,
    the effects of [detectChanges] on the merged item, then (if
    [detectChanges] returned) [repo.update] of the merged item, and only
    when it succeeded the history entry followed by change logging. *)
Lemma updateWishlistItem_shape env obs old_item p :
  let u := Scheduler.merged_item old_item p in
  let d := ChangeDetector.detectChanges env obs old_item u in
  exists rest,
    trace (Scheduler.updateWishlistItem env obs old_item p) =
      (if Scheduler.zero_price_warning p
       then [LogWarning ("Scraped 0 price for in-stock item: " ++ p_title p)%string]
       else []) ++ trace d ++ rest /\
    match result d with
    | Raised => rest = [] /\ result (Scheduler.updateWishlistItem env obs old_item p) = Raised
    | Normal _ =>
        result (Scheduler.updateWishlistItem env obs old_item p) = Normal tt /\
        if repo_update env u then
          exists logs,
            rest = RepoUpdate u true
                   :: HistoryAdd (id u) (current_price u) (in_stock u) :: logs /\
            forall e, In e logs -> is_notify e = false /\ is_history e = false /\
                                  is_repo_update e = false /\ is_counter e = false
        else rest = [RepoUpdate u false;
                     LogError ("Failed to update wishlist item: " ++ url u)%string]
    end.
Proof.
  intros u d.
  unfold Scheduler.updateWishlistItem.
  rewrite trace_bind, result_bind.
  replace (result (if Scheduler.zero_price_warning p
                   then tell (LogWarning ("Scraped 0 price for in-stock item: " ++ p_title p)%string)
                   else ret tt)) with (Normal tt)
    by (destruct (Scheduler.zero_price_warning p); reflexivity).
  replace (trace (if Scheduler.zero_price_warning p
                   then tell (LogWarning ("Scraped 0 price for in-stock item: " ++ p_title p)%string)
                   else ret tt))
    with (if Scheduler.zero_price_warning p
          then [LogWarning ("Scraped 0 price for in-stock item: " ++ p_title p)%string]
          else [])
    by (destruct (Scheduler.zero_price_warning p); reflexivity).
  fold u. fold d.
  rewrite trace_bind, result_bind.
  destruct d as [tr [changes|]] eqn:Ed; cbn [result snd].
  - rewrite trace_bind, result_bind. cbn [trace result tell fst snd].
    destruct (repo_update env u) eqn:Ok; cbn [negb].
    + rewrite trace_bind, result_bind. cbn [trace result tell fst snd].
      set (lg := match changes with
                 | [] => ret tt
                 | _ :: _ => tell (LogDetected (List.length changes) (title u)) ;;;
                             Scheduler.log_changes changes
                 end).
      exists (RepoUpdate u true :: HistoryAdd (id u) (current_price u) (in_stock u) :: trace lg).
      split; [reflexivity|].
      split.
      * assert (Hlc : forall cs, result (Scheduler.log_changes cs) = Normal tt).
        { induction cs as [|c cs IH]; [reflexivity|].
          cbn [Scheduler.log_changes]. rewrite result_bind. exact IH. }
        unfold lg; destruct changes as [|c cs]; [reflexivity|].
        rewrite result_bind. apply Hlc.
      * exists (trace lg). split; [reflexivity|].
        intros e He. unfold lg in He. destruct changes as [|c cs]; [contradiction|].
        rewrite trace_bind in He. cbn [trace result tell fst snd app] in He.
        destruct He as [<-|He]; [auto|].
        apply log_changes_effects in He as [c' ->]. auto.
    + eexists; split; [reflexivity|]. split; reflexivity.
  - exists []. split; [reflexivity|]. split; reflexivity.
Qed.

(** The item handed to [repo.update] is always the merged item. *)
Lemma updateWishlistItem_saves_merged env obs old_item p v ok :
  In (RepoUpdate v ok) (trace (Scheduler.updateWishlistItem env obs old_item p)) ->
  v = Scheduler.merged_item old_item p.
Proof.
  destruct (updateWishlistItem_shape env obs old_item p) as [rest [-> Hr]].
  intros H. apply in_app_or in H as [H|H].
  { destruct (Scheduler.zero_price_warning p); simpl in H;
      [destruct H as [H|[]]; discriminate|contradiction]. }
  apply in_app_or in H as [H|H].
  { apply detectChanges_only_notify in H; discriminate. }
  destruct (result _).
  - destruct Hr as [_ Hr].
    destruct (repo_update env _).
    + destruct Hr as [logs [-> Hl]]. destruct H as [H|[H|H]];
        [congruence|discriminate|].
      apply Hl in H as [_ [_ [H _]]]. discriminate.
    + subst rest. destruct H as [H|[H|[]]]; [congruence|discriminate].
  - destruct Hr as [-> _]; contradiction.
Qed.

(** ** C2 *)

(** C2 (counterexample): a zero price reported with in-stock is logged
    as a probable extraction error but not applied: from a stored price
    of 40, the snapshot (price 0, in stock) logs the warning and saves
    the item with price 40, not 0. *)
Lemma updateWishlistItem_zero_price_not_applied :
  let p := Samples.snapshot 0 true in
  let m := Scheduler.updateWishlistItem (Samples.env p true) [] Samples.old4 p in
  In (LogWarning "Scraped 0 price for in-stock item: Dune") (trace m) /\
  In (RepoUpdate (Scheduler.merged_item Samples.old4 p) true) (trace m) /\
  current_price (Scheduler.merged_item Samples.old4 p) = 40%float /\
  current_price (Scheduler.merged_item Samples.old4 p) <> 0%float.
Proof.
  intros p m.
  assert (Hp : current_price (Scheduler.merged_item Samples.old4 p) = 40%float)
    by (vm_compute; reflexivity).
  split; [vm_compute; left; reflexivity|].
  split; [vm_compute; right; left; reflexivity|].
  split; [exact Hp|].
  rewrite Hp. intros H. apply (f_equal (fun x => PrimFloat.eqb x 0%float)) in H.
  vm_compute in H. discriminate.
Qed.

(** C2 (amended): the merged item's price is the snapshot price when it
    exceeds 0.01 and the stored price otherwise, and that merged item is
    the one saved; when the snapshot is in stock with a price below 0.01
    (and not above it), the first effect of the merge is the warning
    "Scraped 0 price for in-stock item". *)
Theorem updateWishlistItem_price_only_if_positive env obs old_item p :
  current_price (Scheduler.merged_item old_item p) =
    (if PrimFloat.ltb 0.01 (price p) then price p else current_price old_item) /\
  (forall v ok, In (RepoUpdate v ok) (trace (Scheduler.updateWishlistItem env obs old_item p)) ->
     v = Scheduler.merged_item old_item p) /\
  (Scheduler.zero_price_warning p =
     negb (PrimFloat.ltb 0.01 (price p)) && p_in_stock p && PrimFloat.ltb (price p) 0.01) /\
  (Scheduler.zero_price_warning p = true ->
   exists rest, trace (Scheduler.updateWishlistItem env obs old_item p) =
     LogWarning ("Scraped 0 price for in-stock item: " ++ p_title p)%string :: rest).
Proof.
  split; [reflexivity|].
  split; [apply updateWishlistItem_saves_merged|].
  split; [reflexivity|].
  intros Hw. destruct (updateWishlistItem_shape env obs old_item p) as [rest [-> _]].
  rewrite Hw. eexists; reflexivity.
Qed.

(** ** C3 *)

(** C3: when the scrape succeeds and [repo.update] fails, the task writes
    no history entry but counts a success, not a failure: the failure is
    only logged inside [updateWishlistItem], which returns [void]. *)
Theorem process_item_failed_save_counts_success :
  let p := Samples.snapshot 30 true in
  let m := Scheduler.process_item (Samples.env p false) [] Samples.old1 in
  In (RepoUpdate (Scheduler.merged_item Samples.old1 p) false) (trace m) /\
  In (LogError ("Failed to update wishlist item: " ++ Samples.item_url)%string) (trace m) /\
  (forall i q s, ~ In (HistoryAdd i q s) (trace m)) /\
  Run.count SuccessInc (trace m) = 1%Z /\
  Run.count ErrorInc (trace m) = 0%Z /\
  Run.count ProcessedInc (trace m) = 1%Z.
Proof.
  vm_compute.
  split; [right; left; reflexivity|].
  split; [right; right; left; reflexivity|].
  repeat split; try reflexivity; intros *; intros H;
    repeat (destruct H as [H|H]; [discriminate|]); exact H.
Qed.

(** ** C10 *)

(** C10: within [updateWishlistItem], every notification precedes the
    [repo.update] attempt, and a failed save writes no history entry; so
    registered notifiers can be told of a change that is never persisted:
    in scenario 1 with one notifier and a failing save, the notifier is
    invoked, the save fails and no history entry is written. *)
Theorem updateWishlistItem_notifies_before_save :
  (forall env obs old_item p,
     (exists tr1 tr2,
        trace (Scheduler.updateWishlistItem env obs old_item p) = tr1 ++ tr2 /\
        (forall e, In e tr1 -> is_repo_update e = false) /\
        (forall e, In e tr2 -> is_notify e = false)) /\
     (repo_update env (Scheduler.merged_item old_item p) = false ->
      forall e, In e (trace (Scheduler.updateWishlistItem env obs old_item p)) ->
      is_history e = false)) /\
  (let p := Samples.snapshot 30 true in
   let m := Scheduler.updateWishlistItem (Samples.env p false)
              (Scheduler.registered [Some (Samples.good_sink 1)]) Samples.old1 p in
   Samples.notified (trace m) = [1%nat] /\
   In (RepoUpdate Samples.new1 false) (trace m) /\
   forall e, In e (trace m) -> is_history e = false).
Proof.
  split.
  - intros env obs old_item p.
    destruct (updateWishlistItem_shape env obs old_item p) as [rest [Htr Hr]].
    set (w := if Scheduler.zero_price_warning p then _ else _) in Htr.
    assert (Hw : forall e, In e w -> is_repo_update e = false /\ is_notify e = false /\
                                    is_history e = false).
    { unfold w; destruct (Scheduler.zero_price_warning p);
        [intros e [<-|[]]; auto|contradiction]. }
    assert (Hd : forall e, In e (trace (ChangeDetector.detectChanges env obs old_item
                                        (Scheduler.merged_item old_item p))) ->
                           is_repo_update e = false /\ is_history e = false).
    { intros e He. apply detectChanges_only_notify in He. destruct e; try discriminate; auto. }
    split.
    + exists (w ++ trace (ChangeDetector.detectChanges env obs old_item
                          (Scheduler.merged_item old_item p))), rest.
      rewrite <- app_assoc. split; [exact Htr|]. split.
      * intros e He. apply in_app_or in He as [He|He]; [apply Hw|apply Hd]; exact He.
      * intros e He. destruct (result _).
        -- destruct Hr as [_ Hr]. destruct (repo_update env _).
           ++ destruct Hr as [logs [-> Hl]]. destruct He as [<-|[<-|He]]; auto.
              apply Hl; exact He.
           ++ subst rest. destruct He as [<-|[<-|[]]]; reflexivity.
        -- destruct Hr as [-> _]; contradiction.
    + intros Hfail e He. rewrite Htr in He.
      apply in_app_or in He as [He|He]; [apply Hw; exact He|].
      apply in_app_or in He as [He|He]; [apply Hd; exact He|].
      destruct (result _).
      * destruct Hr as [_ Hr]. rewrite Hfail in Hr. subst rest.
        destruct He as [<-|[<-|[]]]; reflexivity.
      * destruct Hr as [-> _]; contradiction.
  - vm_compute. split; [reflexivity|]. split; [right; left; reflexivity|].
    intros e H. repeat (destruct H as [<-|H]; [reflexivity|]). destruct H.
Qed.

(** ** Run exclusivity *)

(** While a run is active, [is_running_] is set. *)
Lemma reachable_active_running s :
  Run.reachable s -> Run.active s <> None -> Run.is_running s = true.
Proof.
  induction 1 as [|s s' Hr IH Hs].
  - simpl; congruence.
  - inversion Hs as [items s0 r s1 Hc| tr s0 c Hac| s0 c Hac]; subst.
    + unfold Run.runOnce_call in Hc.
      destruct (Run.is_running s) eqn:Er.
      * injection Hc as _ <-. intros _; exact Er.
      * destruct items; injection Hc as _ <-; simpl.
        -- intros Ha. specialize (IH Ha). congruence.
        -- reflexivity.
    + intros _. simpl. apply IH. congruence.
    + simpl. congruence.
Qed.

(** ** C6 *)

(** C6: while a run is active, [runOnce()] returns 0 at once and leaves
    the whole scheduler state, the guard and the counters of the run in
    progress included, as it was; the guard [is_running_] is held for the
    whole run. *)
Theorem runOnce_while_running_returns_zero s items :
  Run.reachable s -> Run.active s <> None ->
  Run.is_running s = true /\ Run.runOnce_call items s = (Run.Returned 0, s).
Proof.
  intros Hr Ha.
  assert (Er : Run.is_running s = true) by (apply reachable_active_running; assumption).
  split; [exact Er|].
  unfold Run.runOnce_call. rewrite Er. reflexivity.
Qed.

(** The state right after a run over scenario 1's item has started. *)
Lemma runOnce_while_running_returns_zero_witness :
  let s := snd (Run.runOnce_call [Samples.old1] Run.init_state) in
  Run.reachable s /\ Run.active s <> None /\
  (Run.is_running s = true /\
   Run.runOnce_call [Samples.old3] s = (Run.Returned 0, s)).
Proof.
  intros s.
  assert (Hr : Run.reachable s).
  { apply (Run.reach_step Run.init_state). apply Run.reach_init.
    apply (Run.step_call [Samples.old1] Run.init_state Run.Started). reflexivity. }
  assert (Ha : Run.active s <> None) by (vm_compute; discriminate).
  split; [exact Hr|]. split; [exact Ha|].
  apply (runOnce_while_running_returns_zero s [Samples.old3] Hr Ha).
Defined.

(** ** C9 *)


(** ** Run counters *)

Lemma count_app c l1 l2 : Run.count c (l1 ++ l2) = (Run.count c l1 + Run.count c l2)%Z.
Proof. unfold Run.count. rewrite filter_app, length_app. apply Nat2Z.inj_add. Qed.

Lemma count_no_counters c tr :
  (forall e, In e tr -> is_counter e = false) -> Run.count c tr = 0%Z.
Proof.
  induction tr as [|e tr IH]; intros H; [reflexivity|].
  unfold Run.count in *; simpl.
  destruct (Run.is_eff c e) eqn:E.
  - exfalso. specialize (H e (or_introl eq_refl)).
    destruct c, e; simpl in E, H; discriminate.
  - apply IH. intros e' He'. apply H. right. exact He'.
Qed.

Lemma updateWishlistItem_no_counters env obs old_item p e :
  In e (trace (Scheduler.updateWishlistItem env obs old_item p)) -> is_counter e = false.
Proof.
  destruct (updateWishlistItem_shape env obs old_item p) as [rest [-> Hr]].
  intros H. apply in_app_or in H as [H|H].
  { destruct (Scheduler.zero_price_warning p); simpl in H;
      [destruct H as [<-|[]]; reflexivity|contradiction]. }
  apply in_app_or in H as [H|H].
  { apply detectChanges_only_notify in H. destruct e; try discriminate; reflexivity. }
  destruct (result _).
  - destruct Hr as [_ Hr].
    destruct (repo_update env _).
    + destruct Hr as [logs [-> Hl]]. destruct H as [<-|[<-|H]]; [reflexivity|reflexivity|].
      apply Hl in H as [_ [_ [_ H]]]. exact H.
    + subst rest. destruct H as [<-|[<-|[]]]; reflexivity.
  - destruct Hr as [-> _]; contradiction.
Qed.

(** A per-item task that returns normally increments [processed_count]
    once and exactly one of [success_count] and [error_count]. *)
Lemma process_item_counts env obs it :
  result (Scheduler.process_item env obs it) = Normal tt ->
  Run.count ProcessedInc (trace (Scheduler.process_item env obs it)) = 1%Z /\
  (Run.count SuccessInc (trace (Scheduler.process_item env obs it)) +
   Run.count ErrorInc (trace (Scheduler.process_item env obs it)) = 1)%Z.
Proof.
  unfold Scheduler.process_item.
  destruct (Scheduler.success (Scheduler.scrapeProduct env (url it))).
  - match goal with
    | |- context [Scheduler.updateWishlistItem env obs it ?p] =>
        pose proof (updateWishlistItem_no_counters env obs it p) as Hn;
        destruct (Scheduler.updateWishlistItem env obs it p) as [tr [[]|]] eqn:E
    end.
    + cbn [bind trace result tell ret fst snd]. intros _.
      simpl in Hn.
      rewrite !count_app, !(count_no_counters _ tr Hn). split; reflexivity.
    + cbn [bind trace result tell ret fst snd]. discriminate.
  - cbn [bind trace result tell ret fst snd]. intros _. split; reflexivity.
Qed.

(** When every task returns normally, the run processes every item and
    counts each one as a success or a failure. *)
Lemma run_counters_all_normal env obs items :
  (forall it, In it items -> result (Scheduler.process_item env obs it) = Normal tt) ->
  Run.processed_count (Run.run_counters env obs items) = Z.of_nat (List.length items) /\
  (Run.success_count (Run.run_counters env obs items) +
   Run.error_count (Run.run_counters env obs items) = Z.of_nat (List.length items))%Z.
Proof.
  unfold Run.run_counters.
  assert (G : forall acc,
    (forall it, In it items -> result (Scheduler.process_item env obs it) = Normal tt) ->
    Run.processed_count
      (fold_left (fun c it => Run.apply_task (trace (Scheduler.process_item env obs it)) c)
                 items acc) = (Run.processed_count acc + Z.of_nat (List.length items))%Z /\
    (Run.success_count
       (fold_left (fun c it => Run.apply_task (trace (Scheduler.process_item env obs it)) c)
                  items acc) +
     Run.error_count
       (fold_left (fun c it => Run.apply_task (trace (Scheduler.process_item env obs it)) c)
                  items acc) =
     Run.success_count acc + Run.error_count acc + Z.of_nat (List.length items))%Z).
  { induction items as [|it rest IH]; intros acc Hall; simpl.
    - lia.
    - destruct (process_item_counts env obs it (Hall it (or_introl eq_refl))) as [Hp Hse].
      destruct (IH (Run.apply_task (trace (Scheduler.process_item env obs it)) acc)
                   (fun it' H' => Hall it' (or_intror H')))
        as [IH1 IH2].
      rewrite IH1, IH2. unfold Run.apply_task; simpl. lia. }
  intros Hall. destruct (G Run.zero_counters Hall) as [G1 G2]. simpl in G1, G2. lia.
Qed.

(** ** C7 *)

(** C7: a run can return normally with [processed < N]: over scenario 1's
    and scenario 3's items with one registered notifier that throws, the
    first item's task ends at the throw, so [runOnce()] returns 1 for 2
    items and only 1 task was counted as a success or a failure. *)
Theorem runOnce_throwing_sink_processed_below_total :
  let obs := Scheduler.registered [Some (Samples.throwing_sink 1)] in
  let env := Samples.env (Samples.snapshot 30 true) true in
  let items := [Samples.old1; Samples.old3] in
  Z.of_nat (List.length items) = 2%Z /\
  Run.runOnce env obs items = 1%Z /\
  Run.processed_count (Run.run_counters env obs items) = 1%Z /\
  (Run.success_count (Run.run_counters env obs items) +
   Run.error_count (Run.run_counters env obs items) = 1)%Z.
Proof. vm_compute. repeat split. Qed.

(** ** Admission window *)

Section Admission.





End Admission.

(** ** C8 *)



(* ------------------------------------------------------------------ *)
(** * Further properties of the scheduler *)

(** ** IEEE order *)

Lemma SFcompare_swap x y :
  SpecFloat.SFcompare y x = option_map CompOpp (SpecFloat.SFcompare x y).
Proof.
  destruct x as [sx|sx| |sx mx ex]; destruct y as [sy|sy| |sy my ey];
    try destruct sx; try destruct sy; try reflexivity; cbn.
  all: pose proof (Pos.compare_cont_antisym mx my Eq) as Hm; cbn in Hm.
  all: rewrite (Z.compare_antisym ex ey); destruct (Z.compare ex ey); cbn; try reflexivity.
  all: rewrite <- Hm; destruct (PosDef.Pos.compare_cont Eq mx my); reflexivity.
Qed.

(** [x <= y] and [y < x] never both hold, NaN included. *)
Lemma float_leb_not_ltb x y : PrimFloat.leb x y = true -> PrimFloat.ltb y x = false.
Proof.
  rewrite FloatAxioms.leb_spec, FloatAxioms.ltb_spec.
  unfold SpecFloat.SFleb, SpecFloat.SFltb.
  rewrite SFcompare_swap. destruct (SpecFloat.SFcompare _ _) as [[]|]; cbn; congruence.
Qed.

(** ** Scrape failures *)

(** [scrapeProduct] succeeds exactly when a scraper exists and returns a
    product; its result then carries that product and no message. *)
Lemma scrapeProduct_success env u :
  Scheduler.success (Scheduler.scrapeProduct env u) = true ->
  exists p, has_scraper env u = true /\ scrape env u = Scraped p /\
            Scheduler.scrapeProduct env u = Scheduler.mkScrapeResult true p "".
Proof.
  unfold Scheduler.scrapeProduct.
  destruct (has_scraper env u); cbn [negb]; [|discriminate].
  destruct (scrape env u) as [p| |w]; cbn; [eauto|discriminate|discriminate].
Qed.

(** A per-item task whose scrape fails (no scraper for the URL, no data,
    or an exception caught in [scrapeProduct]) logs the debug line and
    the warning "Failed to scrape <url>: <message>", counts one failure,
    one processed item and one progress step, and returns: it never
    notifies, saves or writes history. *)
Theorem process_item_scrape_failure env obs it :
  Scheduler.success (Scheduler.scrapeProduct env (url it)) = false ->
  (has_scraper env (url it) = false \/ forall p, scrape env (url it) <> Scraped p) /\
  Scheduler.process_item env obs it =
    ([LogDebug ("Scraping: " ++ url it)%string;
      LogWarning ("Failed to scrape " ++ url it ++ ": " ++
                  Scheduler.error_message (Scheduler.scrapeProduct env (url it)))%string;
      ErrorInc; ProcessedInc; ScrapeProcessedInc], Normal tt).
Proof.
  intros Hf. split.
  - unfold Scheduler.scrapeProduct in Hf.
    destruct (has_scraper env (url it)); [right|left; reflexivity].
    intros p Hp. rewrite Hp in Hf. discriminate.
  - unfold Scheduler.process_item. rewrite Hf. reflexivity.
Qed.

(** A URL no scraper handles. *)
Lemma process_item_scrape_failure_witness :
  let env := mkEnv 7 (fun _ => false) (fun _ => NoData) (fun _ => None) (fun _ => true) in
  Scheduler.success (Scheduler.scrapeProduct env (url Samples.old1)) = false /\
  ((has_scraper env (url Samples.old1) = false \/
    forall p, scrape env (url Samples.old1) <> Scraped p) /\
   Scheduler.process_item env [] Samples.old1 =
    ([LogDebug ("Scraping: " ++ url Samples.old1)%string;
      LogWarning ("Failed to scrape " ++ url Samples.old1 ++ ": " ++
                  Scheduler.error_message (Scheduler.scrapeProduct env (url Samples.old1)))%string;
      ErrorInc; ProcessedInc; ScrapeProcessedInc], Normal tt)).
Proof.
  intros env.
  assert (H : Scheduler.success (Scheduler.scrapeProduct env (url Samples.old1)) = false)
    by reflexivity.
  split; [exact H|]. apply (process_item_scrape_failure env [] Samples.old1 H).
Defined.

(** ** The item a task saves *)

(** Every [repo.update] of a per-item task is the save of the merge of
    the stored row with the scraped snapshot, after its image was cached. *)
Lemma process_item_saves env obs it v ok :
  In (RepoUpdate v ok) (trace (Scheduler.process_item env obs it)) ->
  exists p, has_scraper env (url it) = true /\ scrape env (url it) = Scraped p /\
            v = Scheduler.merged_item it (Views.with_cached_image env p).
Proof.
  unfold Scheduler.process_item.
  destruct (Scheduler.success (Scheduler.scrapeProduct env (url it))) eqn:Es.
  - destruct (scrapeProduct_success env (url it) Es) as [p [Hh [Hs Hr]]].
    rewrite Hr. cbn [Scheduler.product].
    change (Scheduler.updateWishlistItem env obs it
              (if String.eqb (p_image_url p) "" then p
               else match cache_image env (p_image_url p) with
                    | Some path =>
                        {| p_url := p_url p; p_title := p_title p; price := price p;
                           p_in_stock := p_in_stock p; p_is_uhd_4k := p_is_uhd_4k p;
                           p_image_url := p_image_url p; p_local_image_path := path;
                           last_updated := last_updated p; p_source := p_source p |}
                    | None => p
                    end))
      with (Scheduler.updateWishlistItem env obs it (Views.with_cached_image env p)).
    pose proof (updateWishlistItem_saves_merged env obs it (Views.with_cached_image env p) v ok)
      as Hm.
    destruct (Scheduler.updateWishlistItem env obs it (Views.with_cached_image env p))
      as [tr [[]|]].
    + cbn [bind trace tell ret fst snd app]. intros H.
      destruct H as [H|H]; [discriminate|].
      apply in_app_or in H as [H|H].
      * apply in_app_or in H as [H|[H|[]]]; [|discriminate].
        exists p. repeat split; [exact Hh|exact Hs|]. apply Hm. exact H.
      * destruct H as [H|[H|[]]]; discriminate.
    + cbn [bind trace tell ret fst snd app]. intros H.
      destruct H as [H|H]; [discriminate|]. exists p. repeat split; [exact Hh|exact Hs|]. apply Hm. exact H.
  - cbn [bind trace tell ret fst snd app]. intros H.
    repeat (destruct H as [H|H]; [discriminate|]). destruct H.
Qed.

(** A task never changes what the user owns: the row identity, the URL,
    the price threshold, both notification flags and the title lock are
    those of the stored row, and a locked title is never overwritten. *)
Theorem process_item_saved_item_keeps_user_fields env obs it v ok :
  In (RepoUpdate v ok) (trace (Scheduler.process_item env obs it)) ->
  id v = id it /\ url v = url it /\ desired_max_price v = desired_max_price it /\
  notify_on_price_drop v = notify_on_price_drop it /\
  notify_on_stock v = notify_on_stock it /\
  title_locked v = title_locked it /\
  (title_locked it = true -> title v = title it).
Proof.
  intros H. destruct (process_item_saves env obs it v ok H) as [p [_ [_ ->]]].
  cbn [Scheduler.merged_item id url desired_max_price notify_on_price_drop
       notify_on_stock title_locked title].
  repeat split. intros Hl. unfold Scheduler.merged_title. rewrite Hl. reflexivity.
Qed.

(** Scenario 1 with a title lock: the row is saved with its own title. *)
Lemma process_item_saved_item_keeps_user_fields_witness :
  let it := {| id := 1; url := Samples.item_url; title := "Dune (2021)";
               current_price := 40; desired_max_price := 35; in_stock := true;
               is_uhd_4k := false; image_url := ""; local_image_path := "";
               source := "bol.com"; last_checked := 0; notify_on_price_drop := true;
               notify_on_stock := true; title_locked := true |} in
  let env := Samples.env (Samples.snapshot 30 true) true in
  let v := Scheduler.merged_item it (Samples.snapshot 30 true) in
  In (RepoUpdate v true) (trace (Scheduler.process_item env [] it)) /\
  (id v = id it /\ url v = url it /\ desired_max_price v = desired_max_price it /\
   notify_on_price_drop v = notify_on_price_drop it /\
   notify_on_stock v = notify_on_stock it /\
   title_locked v = title_locked it /\
   (title_locked it = true -> title v = title it)).
Proof.
  intros it env v.
  assert (H : In (RepoUpdate v true) (trace (Scheduler.process_item env [] it)))
    by (vm_compute; right; left; reflexivity).
  split; [exact H|]. apply (process_item_saved_item_keeps_user_fields env [] it v true H).
Defined.

(** The image fields of the saved row: the image URL is the scraped one;
    the cached file path is stored when [cacheImage] returns one; a new,
    non-empty image URL whose download failed clears the stale path; and
    with no scraped image URL (nor path) the stored path is kept. *)
Theorem process_item_saved_image_path env obs it p v ok :
  has_scraper env (url it) = true ->
  scrape env (url it) = Scraped p ->
  In (RepoUpdate v ok) (trace (Scheduler.process_item env obs it)) ->
  image_url v = p_image_url p /\
  (forall path, p_image_url p <> "" -> cache_image env (p_image_url p) = Some path ->
                path <> "" -> local_image_path v = path) /\
  (p_image_url p <> "" -> p_image_url p <> image_url it ->
   cache_image env (p_image_url p) = None -> p_local_image_path p = "" ->
   local_image_path v = "") /\
  (p_image_url p = "" -> p_local_image_path p = "" ->
   local_image_path v = local_image_path it).
Proof.
  intros _ Hs H. destruct (process_item_saves env obs it v ok H) as [q [_ [Hq ->]]].
  rewrite Hs in Hq. injection Hq as <-.
  unfold Views.with_cached_image. cbn [Scheduler.merged_item image_url local_image_path].
  split; [destruct (String.eqb (p_image_url p) ""); [|destruct (cache_image env _)]; reflexivity|].
  split; [|split].
  - intros path Hu Hc Hp.
    apply String.eqb_neq in Hu. rewrite Hu, Hc.
    unfold Scheduler.merged_local_image_path; cbn [p_local_image_path].
    apply String.eqb_neq in Hp. rewrite Hp. reflexivity.
  - intros Hu Hne Hc Hl.
    apply String.eqb_neq in Hu. rewrite Hu, Hc.
    unfold Scheduler.merged_local_image_path.
    rewrite Hl, Hu. apply String.eqb_neq in Hne. rewrite Hne. reflexivity.
  - intros Hu Hl. apply String.eqb_eq in Hu. rewrite Hu.
    unfold Scheduler.merged_local_image_path.
    rewrite Hl. cbn [String.eqb negb].
    apply String.eqb_eq in Hu. rewrite Hu.
    destruct (String.eqb "" (image_url it)); reflexivity.
Qed.

(** A snapshot with an image URL the cache stores as a local file. *)
Lemma process_item_saved_image_path_witness :
  let p := mkProduct Samples.item_url "Dune" 30 true false "https://img/dune.jpg" "" 1
                     "bol.com" in
  let env := mkEnv 7 (fun _ => true) (fun _ => Scraped p)
                   (fun _ => Some "cache/dune.jpg") (fun _ => true) in
  let v := Scheduler.merged_item Samples.old1 (Views.with_cached_image env p) in
  has_scraper env (url Samples.old1) = true /\
  scrape env (url Samples.old1) = Scraped p /\
  In (RepoUpdate v true) (trace (Scheduler.process_item env [] Samples.old1)) /\
  (image_url v = p_image_url p /\
   (forall path, p_image_url p <> "" -> cache_image env (p_image_url p) = Some path ->
                 path <> "" -> local_image_path v = path) /\
   (p_image_url p <> "" -> p_image_url p <> image_url Samples.old1 ->
    cache_image env (p_image_url p) = None -> p_local_image_path p = "" ->
    local_image_path v = "") /\
   (p_image_url p = "" -> p_local_image_path p = "" ->
    local_image_path v = local_image_path Samples.old1)).
Proof.
  intros p env v.
  assert (H1 : has_scraper env (url Samples.old1) = true) by reflexivity.
  assert (H2 : scrape env (url Samples.old1) = Scraped p) by reflexivity.
  assert (H3 : In (RepoUpdate v true) (trace (Scheduler.process_item env [] Samples.old1)))
    by (vm_compute; right; left; reflexivity).
  split; [exact H1|]. split; [exact H2|]. split; [exact H3|].
  apply (process_item_saved_image_path env [] Samples.old1 p v true H1 H2 H3).
Defined.

(** ** Price history *)

Lemma filter_history_none l :
  (forall e, In e l -> is_history e = false) -> filter is_history l = [].
Proof.
  induction l as [|e l IH]; intros H; [reflexivity|].
  cbn [filter]. rewrite (H e (or_introl eq_refl)).
  apply IH. intros e' He'. apply H. right. exact He'.
Qed.

(** When the change detection returns and [repo.update] succeeds, the
    update appends exactly one price-history entry, for the row's id, with
    the merged price and the scraped stock status. *)
Theorem updateWishlistItem_one_history_entry env obs old_item p :
  result (ChangeDetector.detectChanges env obs old_item
            (Scheduler.merged_item old_item p)) <> Raised ->
  repo_update env (Scheduler.merged_item old_item p) = true ->
  filter is_history (trace (Scheduler.updateWishlistItem env obs old_item p)) =
    [HistoryAdd (id old_item) (Scheduler.merged_price old_item p) (p_in_stock p)].
Proof.
  intros Hd Hok.
  destruct (updateWishlistItem_shape env obs old_item p) as [rest [-> Hr]].
  rewrite !filter_app.
  rewrite (filter_history_none
             (if Scheduler.zero_price_warning p then _ else []))
    by (destruct (Scheduler.zero_price_warning p); [intros e [<-|[]]; reflexivity|contradiction]).
  rewrite (filter_history_none
             (trace (ChangeDetector.detectChanges env obs old_item
                       (Scheduler.merged_item old_item p))))
    by (intros e He; apply detectChanges_only_notify in He; destruct e; try discriminate;
        reflexivity).
  destruct (result _) as [evs|]; [|contradiction].
  destruct Hr as [_ Hr]. rewrite Hok in Hr. destruct Hr as [logs [-> Hl]].
  cbn [filter is_history app].
  rewrite filter_history_none by (intros e He; apply Hl; exact He).
  reflexivity.
Qed.

(** Scenario 1, saved successfully. *)
Lemma updateWishlistItem_one_history_entry_witness :
  let p := Samples.snapshot 30 true in
  let env := Samples.env p true in
  result (ChangeDetector.detectChanges env [] Samples.old1
            (Scheduler.merged_item Samples.old1 p)) <> Raised /\
  repo_update env (Scheduler.merged_item Samples.old1 p) = true /\
  filter is_history (trace (Scheduler.updateWishlistItem env [] Samples.old1 p)) =
    [HistoryAdd (id Samples.old1) (Scheduler.merged_price Samples.old1 p) (p_in_stock p)].
Proof.
  intros p env.
  assert (H1 : result (ChangeDetector.detectChanges env [] Samples.old1
                         (Scheduler.merged_item Samples.old1 p)) <> Raised)
    by (vm_compute; discriminate).
  assert (H2 : repo_update env (Scheduler.merged_item Samples.old1 p) = true) by reflexivity.
  split; [exact H1|]. split; [exact H2|].
  apply (updateWishlistItem_one_history_entry env [] Samples.old1 p H1 H2).
Defined.

(** ** Re-scraping an unchanged snapshot *)

(** Applying the same snapshot a second time never raises an alert:
    after [merged_item] has stored a snapshot, detecting changes between
    that row and its merge with the same snapshot notifies nobody,
    returns, and reports at most a [PriceChanged] event. *)
Theorem detectChanges_same_snapshot_twice env obs old_item p :
  let m1 := Scheduler.merged_item old_item p in
  let d := ChangeDetector.detectChanges env obs m1 (Scheduler.merged_item m1 p) in
  Samples.notified (trace d) = [] /\
  exists evs, result d = Normal evs /\ forall ev, In ev evs -> type ev = PriceChanged.
Proof.
  intros m1 d.
  assert (Hp : current_price (Scheduler.merged_item m1 p) = current_price m1).
  { unfold m1, Scheduler.merged_item, Scheduler.merged_price; cbn [current_price].
    destruct (PrimFloat.ltb ChangeDetector.eps (price p)); reflexivity. }
  assert (Hs2 : in_stock (Scheduler.merged_item m1 p) = p_in_stock p) by reflexivity.
  assert (Hs1 : in_stock m1 = p_in_stock p) by reflexivity.
  assert (Hf : forall b t, b && PrimFloat.leb (current_price m1) t &&
                           PrimFloat.ltb t (current_price m1) = false).
  { intros b t. destruct (PrimFloat.leb (current_price m1) t) eqn:E;
      [rewrite (float_leb_not_ltb _ _ E)|]; destruct b; reflexivity. }
  unfold d, ChangeDetector.detectChanges. rewrite Hp, Hs2, Hs1, Hf.
  replace (notify_on_stock (Scheduler.merged_item m1 p) && negb (p_in_stock p) && p_in_stock p)
    with false by (destruct (p_in_stock p); rewrite ?andb_false_r; reflexivity).
  replace (p_in_stock p && negb (p_in_stock p)) with false
    by (destruct (p_in_stock p); reflexivity).
  destruct (PrimFloat.ltb ChangeDetector.eps _); cbn [trace result fst snd ret].
  - split; [reflexivity|]. eexists; split; [reflexivity|].
    intros ev [<-|[]]; reflexivity.
  - split; [reflexivity|]. eexists; split; [reflexivity|]. intros ev [].
Qed.

(** ** Only configured notifiers are notified *)

Lemma notifyObservers_prefix obs ev :
  exists rest, observer_ids obs =
               Samples.notified (trace (ChangeDetector.notifyObservers obs ev)) ++ rest.
Proof.
  induction obs as [|[o|] obs IH]; cbn [ChangeDetector.notifyObservers].
  - exists []. reflexivity.
  - destruct IH as [rest IH].
    unfold ChangeDetector.onChangeDetected. rewrite !trace_bind, !result_bind.
    cbn [trace result tell fst snd app].
    destruct (obs_throws o ev); cbn [trace result raise ret fst snd app].
    + exists (observer_ids obs). reflexivity.
    + exists rest. change (observer_ids (Some o :: obs)) with (obs_id o :: observer_ids obs).
      rewrite IH. reflexivity.
  - exact IH.
Qed.

Lemma observer_ids_registered cands :
  observer_ids (Scheduler.registered cands) = Views.configured_ids cands.
Proof.
  rewrite registered_configured. unfold observer_ids, Views.configured_ids.
  induction cands as [|[o|] cands IH]; cbn [flat_map]; [reflexivity| |exact IH].
  destruct (obs_configured o); cbn [app]; rewrite <- IH; reflexivity.
Qed.

(** Whatever the event and whichever notifier throws, the notifiers that
    [detectChanges] invokes are a prefix of the configured, non-null
    notifiers offered to [addNotifier], in the order they were offered:
    an unconfigured or null notifier is never invoked, nor any twice. *)
Theorem detectChanges_notifies_configured_prefix env cands old_item new_item :
  exists rest,
    Views.configured_ids cands =
    Samples.notified (trace (ChangeDetector.detectChanges env (Scheduler.registered cands)
                               old_item new_item)) ++ rest.
Proof.
  rewrite <- observer_ids_registered.
  set (obs := Scheduler.registered cands).
  assert (Hn : forall ev, exists rest, observer_ids obs =
     Samples.notified (trace (ChangeDetector.notifyObservers obs ev ;;; ret [ev])) ++ rest).
  { intros ev. destruct (notifyObservers_prefix obs ev) as [rest Hr].
    exists rest. rewrite trace_bind.
    destruct (result _) as [[]|]; cbn [trace ret fst]; rewrite app_nil_r; exact Hr. }
  unfold ChangeDetector.detectChanges.
  destruct (_ && _ && _ && _); [apply Hn|].
  destruct (_ && _ && _); [apply Hn|].
  exists (observer_ids obs).
  destruct (PrimFloat.ltb _ _); [reflexivity|].
  destruct (_ && _); reflexivity.
Qed.

(* ------------------------------------------------------------------ *)
(** ** Configuration *)

Lemma digit_of_char d : (0 <= d < 10)%Z -> Config.digit_of (Config.digit_char d) = Some d.
Proof.
  intros Hd.
  assert (H : (d = 0 \/ d = 1 \/ d = 2 \/ d = 3 \/ d = 4 \/ d = 5 \/ d = 6 \/ d = 7 \/
               d = 8 \/ d = 9)%Z) by lia.
  repeat destruct H as [->|H]; try reflexivity; subst; reflexivity.
Qed.

Lemma digit_char_not_space d : (0 <= d < 10)%Z ->
  Config.is_space (Config.digit_char d) = false /\
  Nat.eqb (Ascii.nat_of_ascii (Config.digit_char d)) 45 = false /\
  Nat.eqb (Ascii.nat_of_ascii (Config.digit_char d)) 43 = false.
Proof.
  intros Hd.
  assert (H : (d = 0 \/ d = 1 \/ d = 2 \/ d = 3 \/ d = 4 \/ d = 5 \/ d = 6 \/ d = 7 \/
               d = 8 \/ d = 9)%Z) by lia.
  repeat destruct H as [->|H]; try (repeat split; reflexivity); subst; repeat split; reflexivity.
Qed.

Lemma dec_digits_app f n acc r :
  (Config.dec_digits f n acc ++ r = Config.dec_digits f n (acc ++ r))%string.
Proof.
  revert n acc; induction f as [|f IH]; intros n acc; cbn [Config.dec_digits]; [reflexivity|].
  destruct (n <? 10)%Z; [reflexivity|]. rewrite IH. reflexivity.
Qed.

Lemma dec_digits_head f n tail :
  (0 < f)%nat ->
  exists d s', (0 <= d < 10)%Z /\ Config.dec_digits f n tail = String (Config.digit_char d) s'.
Proof.
  revert n tail; induction f as [|f IH]; intros n tail Hf; [lia|].
  cbn [Config.dec_digits].
  destruct (n <? 10)%Z.
  - exists (n mod 10)%Z, tail. split; [apply Z.mod_pos_bound; lia|reflexivity].
  - destruct f as [|f].
    + exists (n mod 10)%Z, tail. split; [apply Z.mod_pos_bound; lia|reflexivity].
    + apply IH. lia.
Qed.

Lemma read_digits_dec f n tail v c :
  (0 < f)%nat -> (0 <= n < 10 ^ Z.of_nat f)%Z ->
  exists k, (0 < k)%nat /\
    Config.read_digits (Config.dec_digits f n tail) v c =
    Config.read_digits tail (v * 10 ^ Z.of_nat k + n)%Z (c + k).
Proof.
  revert n tail v c; induction f as [|f IH]; intros n tail v c Hf Hn; [lia|].
  cbn [Config.dec_digits].
  assert (Hm : (0 <= n mod 10 < 10)%Z) by (apply Z.mod_pos_bound; lia).
  destruct (Z.ltb_spec n 10).
  - exists 1%nat. split; [lia|].
    cbn [Config.read_digits]. rewrite digit_of_char by exact Hm.
    rewrite Z.mod_small by lia. f_equal; lia.
  - assert (Hf' : (0 < f)%nat).
    { destruct f; [|lia]. simpl in Hn. lia. }
    assert (Hq : (0 <= n / 10 < 10 ^ Z.of_nat f)%Z).
    { split; [apply Z.div_pos; lia|].
      apply Z.div_lt_upper_bound; [lia|].
      rewrite Nat2Z.inj_succ, Z.pow_succ_r in Hn by lia. lia. }
    destruct (IH (n / 10)%Z (String (Config.digit_char (n mod 10)) tail) v c Hf' Hq)
      as [k [Hk ->]].
    exists (S k). split; [lia|].
    cbn [Config.read_digits]. rewrite digit_of_char by exact Hm.
    f_equal; [|lia].
    rewrite Nat2Z.inj_succ, Z.pow_succ_r by lia.
    pose proof (Z.div_mod n 10). lia.
Qed.

Lemma skip_space_app ws s :
  Config.skip_space ws = "" -> Config.skip_space (ws ++ s) = Config.skip_space s.
Proof.
  induction ws as [|c ws IH]; cbn [Config.skip_space append]; [reflexivity|].
  destruct (Config.is_space c); [exact IH|discriminate].
Qed.

Lemma read_digits_stop rest v c :
  (forall ch r, rest = String ch r -> Config.digit_of ch = None) ->
  Config.read_digits rest v c = (v, c).
Proof.
  destruct rest as [|ch r]; intros H; [reflexivity|].
  cbn [Config.read_digits]. rewrite (H ch r eq_refl). reflexivity.
Qed.


Lemma strtol_nonneg n rest :
  (0 <= n < 10 ^ 20)%Z ->
  (forall ch r, rest = String ch r -> Config.digit_of ch = None) ->
  Config.strtol (Config.dec_digits 20 n rest) = Some n.
Proof.
  intros Hn Hr. unfold Config.strtol.
  destruct (dec_digits_head 20 n rest ltac:(lia)) as [d [s' [Hd Hh]]].
  destruct (digit_char_not_space d Hd) as [Hsp [Hmi Hpl]].
  rewrite Hh. cbn [Config.skip_space]. rewrite Hsp, Hmi, Hpl. rewrite <- Hh.
  destruct (read_digits_dec 20 n rest 0 0 ltac:(lia) ltac:(simpl; lia)) as [k [Hk ->]].
  rewrite read_digits_stop by exact Hr.
  replace (0 * 10 ^ Z.of_nat k + n)%Z with n by lia.
  destruct k; [lia|]. reflexivity.
Qed.

Lemma strtol_ws ws s :
  Config.skip_space ws = "" -> Config.strtol (ws ++ s) = Config.strtol s.
Proof. intros H. unfold Config.strtol. rewrite skip_space_app by exact H. reflexivity. Qed.

Lemma strtol_to_string ws n rest :
  Config.skip_space ws = "" ->
  (forall ch r, rest = String ch r -> Config.digit_of ch = None) ->
  (- 10 ^ 20 < n < 10 ^ 20)%Z ->
  Config.strtol (ws ++ Config.to_string n ++ rest) = Some n.
Proof.
  intros Hws Hr Hn. rewrite strtol_ws by exact Hws. unfold Config.to_string.
  destruct (Z.ltb_spec n 0).
  - unfold Config.strtol. cbn [append Config.skip_space].
    change (Config.is_space (Ascii.ascii_of_nat 45)) with false. cbn iota beta.
    change (Nat.eqb (Ascii.nat_of_ascii (Ascii.ascii_of_nat 45)) 45) with true. cbn iota beta.
    rewrite dec_digits_app. cbn [append].
    destruct (read_digits_dec 20 (- n) rest 0 0 ltac:(lia) ltac:(simpl; lia)) as [k [Hk ->]].
    rewrite read_digits_stop by exact Hr.
    destruct k; [lia|]. cbn. f_equal. lia.
  - rewrite dec_digits_app. cbn [append]. apply strtol_nonneg; [lia|exact Hr].
Qed.

Lemma lookup_put k v k' t :
  Config.lookup k' (Config.put k v t) =
  if String.eqb k k' then Some v else Config.lookup k' t.
Proof.
  unfold Config.put. cbn [Config.lookup].
  destruct (String.eqb k k') eqn:E; [reflexivity|].
  induction t as [|[k0 v0] t IH]; cbn [filter fst]; [reflexivity|].
  destruct (String.eqb k0 k) eqn:E0; cbn [negb Config.lookup].
  - apply String.eqb_eq in E0. subst k0. rewrite E. exact IH.
  - destruct (String.eqb k0 k'); [reflexivity|exact IH].
Qed.

Lemma get_set r k v s k' :
  Config.get (fst (Config.set r k v s)) k' =
  if String.eqb k k' then Some v else Config.get s k'.
Proof. unfold Config.get, Config.set. destruct r; apply lookup_put. Qed.

(** [set(key, value)] is visible at once to [get]; other keys keep their
    values; the database row is written only when SQLite succeeded, with
    an error logged otherwise, so after [reload()] a value whose write
    failed is lost and the database's previous value is back. *)
Theorem set_get_reload r k v s :
  Config.get (fst (Config.set r k v s)) k = Some v /\
  (forall k', k' <> k -> Config.get (fst (Config.set r k v s)) k' = Config.get s k') /\
  Config.get (Config.reload (fst (Config.set r k v s))) k =
    match r with None => Some v | Some _ => Config.lookup k (Config.db s) end /\
  (snd (Config.set r k v s) = [] <-> r = None).
Proof.
  split; [rewrite get_set, String.eqb_refl; reflexivity|].
  split.
  { intros k' Hk. rewrite get_set.
    destruct (String.eqb_spec k k'); [congruence|reflexivity]. }
  split.
  - unfold Config.reload, Config.get, Config.set.
    destruct r; cbn [Config.db Config.cache fst]; [reflexivity|].
    rewrite lookup_put, String.eqb_refl. reflexivity.
  - destruct r; cbn; split; congruence.
Qed.

(** [std::stoi] reads back what [std::to_string] wrote for every [int],
    also after leading white space and before trailing non-digits. *)
Theorem stoi_to_string ws n rest :
  Config.skip_space ws = "" ->
  (forall ch r, rest = String ch r -> Config.digit_of ch = None) ->
  (Config.INT_MIN <= n <= Config.INT_MAX)%Z ->
  Config.stoi (ws ++ Config.to_string n ++ rest) = Some n.
Proof.
  intros Hws Hr Hn. unfold Config.stoi.
  rewrite strtol_to_string by (try assumption; unfold Config.INT_MIN, Config.INT_MAX in Hn; lia).
  replace ((Config.INT_MIN <=? n)%Z && (n <=? Config.INT_MAX)%Z) with true
    by (symmetry; apply andb_true_iff; split; apply Z.leb_le; lia).
  reflexivity.
Qed.

Lemma append_empty_r s : (s ++ "")%string = s.
Proof. induction s as [|c s IH]; cbn; [reflexivity|rewrite IH; reflexivity]. Qed.

Lemma stoi_to_string_int n :
  (Config.INT_MIN <= n <= Config.INT_MAX)%Z -> Config.stoi (Config.to_string n) = Some n.
Proof.
  intros Hn. unfold Config.stoi.
  pose proof (strtol_to_string "" n "" eq_refl ltac:(discriminate)) as H.
  cbn [append] in H. rewrite append_empty_r in H.
  unfold Config.INT_MIN, Config.INT_MAX in *.
  rewrite H by lia.
  replace ((- 2 ^ 31 <=? n)%Z && (n <=? 2 ^ 31 - 1)%Z) with true; [reflexivity|].
  symmetry. apply andb_true_iff. split; apply Z.leb_le; lia.
Qed.

Lemma stoi_to_string_out_of_range n :
  (- 10 ^ 20 < n < Config.INT_MIN \/ Config.INT_MAX < n < 10 ^ 20)%Z ->
  Config.stoi (Config.to_string n) = None.
Proof.
  intros Hn. unfold Config.stoi.
  pose proof (strtol_to_string "" n "" eq_refl ltac:(discriminate)) as H.
  cbn [append] in H. rewrite append_empty_r in H.
  unfold Config.INT_MIN, Config.INT_MAX in *.
  rewrite H by lia.
  replace ((- 2 ^ 31 <=? n)%Z && (n <=? 2 ^ 31 - 1)%Z) with false; [reflexivity|].
  symmetry. apply andb_false_iff.
  destruct Hn as [Hn|Hn]; [left; apply Z.leb_gt|right; apply Z.leb_gt]; lia.
Qed.

(** A number written with [std::to_string] ([set(key, int)], or the web
    API's [long long]) is read back by [getInt] when it fits an [int];
    otherwise [std::stoi] throws [std::out_of_range] and [getInt] logs a
    warning and returns the default.  The database outcome does not
    matter. *)
Theorem getInt_after_set_to_string r k n s d :
  (- 10 ^ 20 < n < 10 ^ 20)%Z ->
  Config.getInt (fst (Config.set r k (Config.to_string n) s)) k d =
    if Config.in_int_range n then (n, [])
    else (d, [("Failed to parse int config '" ++ k ++ "': " ++ Config.to_string n)%string]).
Proof.
  intros Hn. unfold Config.getInt.
  rewrite get_set, String.eqb_refl. unfold Config.in_int_range.
  destruct (Z.leb_spec Config.INT_MIN n), (Z.leb_spec n Config.INT_MAX); cbn [andb].
  - rewrite stoi_to_string_int by lia. reflexivity.
  - rewrite stoi_to_string_out_of_range by lia. reflexivity.
  - rewrite stoi_to_string_out_of_range by lia. reflexivity.
  - unfold Config.INT_MIN, Config.INT_MAX in *. lia.
Qed.

(** [getBool] after [set(key, bool)] returns the stored [bool]. *)
Theorem getBool_set_bool r k b s d :
  Config.getBool (fst (Config.set_bool r k b s)) k d = b.
Proof.
  unfold Config.getBool, Config.set_bool.
  rewrite get_set, String.eqb_refl. destruct b; reflexivity.
Qed.

Lemma get_set_opt dbw k v st k' :
  Config.get (fst (Settings.set_opt dbw k v st)) k' =
  if String.eqb k k' then match v with Some x => Some x | None => Config.get (fst st) k' end
  else Config.get (fst st) k'.
Proof.
  destruct v as [x|]; cbn [Settings.set_opt].
  - pose proof (get_set (dbw k) k x (fst st) k') as H.
    destruct (Config.set (dbw k) k x (fst st)) as [s' l]. exact H.
  - destruct (String.eqb k k'); reflexivity.
Qed.

(** Decide the comparisons of literal keys. *)
Ltac key_eqb :=
  repeat match goal with
  | |- context [String.eqb ?a ?b] =>
      let e := eval vm_compute in (String.eqb a b) in
      match e with
      | true => change (String.eqb a b) with true
      | false => change (String.eqb a b) with false
      end
  end; cbn iota beta.

Lemma put_settings_get_delay dbw b s n :
  Settings.b_scrape_delay_seconds b = Some n ->
  Config.get (fst (snd (Settings.put_settings dbw (Some b) s))) "scrape_delay_seconds" =
    Some (Config.to_string n).
Proof.
  intros Hb. unfold Settings.put_settings. cbv zeta.
  destruct (Settings.b_smtp_port b) as [p|].
  - destruct (_ || _); cbn [fst snd]; rewrite ?get_set_opt; key_eqb; rewrite Hb; reflexivity.
  - cbn [fst snd]; rewrite ?get_set_opt; key_eqb; rewrite Hb; reflexivity.
Qed.

(** [PUT /api/settings] stores [scrape_delay_seconds] before it checks
    anything else, so whatever the response, the delay the next
    [Scheduler] reads (and [GET /api/settings] reports) is the number
    sent when it fits an [int], and the default 8 s otherwise, with a
    warning. *)
Theorem put_settings_scrape_delay dbw b s n :
  Settings.b_scrape_delay_seconds b = Some n ->
  (- 2 ^ 63 <= n < 2 ^ 63)%Z ->
  Config.getInt (fst (snd (Settings.put_settings dbw (Some b) s))) "scrape_delay_seconds" 8 =
    (if Config.in_int_range n then (n, [])
     else (8%Z, [("Failed to parse int config 'scrape_delay_seconds': " ++
                  Config.to_string n)%string])) /\
  Settings.scheduler_delay_seconds (fst (snd (Settings.put_settings dbw (Some b) s))) =
    (if Config.in_int_range n then n else 8%Z).
Proof.
  intros Hb Hn.
  assert (H : Config.getInt (fst (snd (Settings.put_settings dbw (Some b) s)))
                "scrape_delay_seconds" 8 =
              if Config.in_int_range n then (n, [])
              else (8%Z, [("Failed to parse int config 'scrape_delay_seconds': " ++
                           Config.to_string n)%string])).
  { unfold Config.getInt. rewrite (put_settings_get_delay dbw b s n Hb).
    unfold Config.in_int_range.
    destruct (Z.leb_spec Config.INT_MIN n), (Z.leb_spec n Config.INT_MAX); cbn [andb].
    - rewrite stoi_to_string_int by lia. reflexivity.
    - rewrite stoi_to_string_out_of_range by (unfold Config.INT_MAX in *; lia). reflexivity.
    - rewrite stoi_to_string_out_of_range by (unfold Config.INT_MIN in *; lia). reflexivity.
    - unfold Config.INT_MIN, Config.INT_MAX in *. lia. }
  split; [exact H|]. unfold Settings.scheduler_delay_seconds. rewrite H.
  destruct (Config.in_int_range n); reflexivity.
Qed.

(** An accepted [smtp_port] is stored as the [int] the handler narrowed
    the JSON number to, which is within 1..65535 and is what [getInt]
    reads back. *)
Theorem put_settings_smtp_port_accepted dbw b s p d :
  Settings.b_smtp_port b = Some p ->
  Settings.code (fst (Settings.put_settings dbw (Some b) s)) = 200%Z ->
  (1 <= Run.wrap32 p <= 65535)%Z /\
  Config.getInt (fst (snd (Settings.put_settings dbw (Some b) s))) "smtp_port" d =
    (Run.wrap32 p, []).
Proof.
  intros Hp. unfold Settings.put_settings. cbv zeta. rewrite Hp.
  destruct ((Run.wrap32 p <? 1)%Z || (65535 <? Run.wrap32 p)%Z) eqn:Hr;
    cbn [fst snd Settings.code]; [discriminate|].
  intros _. apply orb_false_iff in Hr as [H1 H2].
  apply Z.ltb_ge in H1. apply Z.ltb_ge in H2.
  split; [lia|].
  unfold Config.getInt. rewrite ?get_set_opt. key_eqb.
  rewrite stoi_to_string_int by (unfold Config.INT_MIN, Config.INT_MAX; lia).
  reflexivity.
Qed.

(** A request rejected with "Invalid SMTP port" has already stored the
    delay, the Discord webhook and the SMTP server it carried; the SMTP
    port, user, password, sender and recipient keep their values. *)
Theorem put_settings_invalid_port_partial_update dbw b s p :
  Settings.b_smtp_port b = Some p ->
  (Run.wrap32 p < 1 \/ 65535 < Run.wrap32 p)%Z ->
  fst (Settings.put_settings dbw (Some b) s) = Settings.mkResponse 400 "Invalid SMTP port" /\
  (forall k v, In (k, v) [("scrape_delay_seconds",
                           option_map Config.to_string (Settings.b_scrape_delay_seconds b));
                          ("discord_webhook_url", Settings.b_discord_webhook_url b);
                          ("smtp_server", Settings.b_smtp_server b)] ->
     Config.get (fst (snd (Settings.put_settings dbw (Some b) s))) k =
       match v with Some x => Some x | None => Config.get s k end) /\
  (forall k, In k ["smtp_port"; "smtp_user"; "smtp_pass"; "smtp_from"; "smtp_to"] ->
     Config.get (fst (snd (Settings.put_settings dbw (Some b) s))) k = Config.get s k).
Proof.
  intros Hp Hr. unfold Settings.put_settings. cbv zeta. rewrite Hp.
  replace ((Run.wrap32 p <? 1)%Z || (65535 <? Run.wrap32 p)%Z) with true
    by (symmetry; apply orb_true_iff; destruct Hr; [left|right]; apply Z.ltb_lt; lia).
  cbn [fst snd].
  split; [reflexivity|]. split.
  - intros k v Hin.
    destruct Hin as [Hin|[Hin|[Hin|[]]]]; injection Hin as <- <-;
      rewrite ?get_set_opt; key_eqb; cbn [fst]; reflexivity.
  - intros k Hin.
    repeat (destruct Hin as [<-|Hin]; [rewrite ?get_set_opt; key_eqb; reflexivity|]).
    destruct Hin.
Qed.

(** Leading blanks, a negative number and a trailing unit. *)
Lemma stoi_to_string_witness :
  Config.skip_space "  " = "" /\
  (forall ch r, "s" = String ch r -> Config.digit_of ch = None) /\
  (Config.INT_MIN <= -42 <= Config.INT_MAX)%Z /\
  Config.stoi ("  " ++ Config.to_string (-42) ++ "s") = Some (-42)%Z.
Proof.
  assert (H1 : Config.skip_space "  " = "") by reflexivity.
  assert (H2 : forall ch r, "s" = String ch r -> Config.digit_of ch = None)
    by (intros ch r H; injection H as <- <-; reflexivity).
  assert (H3 : (Config.INT_MIN <= -42 <= Config.INT_MAX)%Z)
    by (unfold Config.INT_MIN, Config.INT_MAX; lia).
  split; [exact H1|]. split; [exact H2|]. split; [exact H3|].
  apply (stoi_to_string "  " (-42) "s" H1 H2 H3).
Defined.

(** A delay of 3000000000 s sent as a [long long]. *)
Lemma getInt_after_set_to_string_witness :
  (- 10 ^ 20 < 3000000000 < 10 ^ 20)%Z /\
  Config.getInt (fst (Config.set None "scrape_delay_seconds" (Config.to_string 3000000000)
                                 (Config.mkStore [] []))) "scrape_delay_seconds" 8 =
    if Config.in_int_range 3000000000 then (3000000000%Z, [])
    else (8%Z, [("Failed to parse int config '" ++ "scrape_delay_seconds" ++ "': " ++
                 Config.to_string 3000000000)%string]).
Proof.
  assert (H : (- 10 ^ 20 < 3000000000 < 10 ^ 20)%Z) by lia.
  split; [exact H|].
  apply (getInt_after_set_to_string None "scrape_delay_seconds" 3000000000
           (Config.mkStore [] []) 8 H).
Defined.

(** The same delay through [PUT /api/settings]. *)
Lemma put_settings_scrape_delay_witness :
  let b := Settings.sample_body 3000000000 25 in
  let s := Config.mkStore [] [] in
  Settings.b_scrape_delay_seconds b = Some 3000000000%Z /\
  (- 2 ^ 63 <= 3000000000 < 2 ^ 63)%Z /\
  (Config.getInt (fst (snd (Settings.put_settings (fun _ => None) (Some b) s)))
     "scrape_delay_seconds" 8 =
    (if Config.in_int_range 3000000000 then (3000000000%Z, [])
     else (8%Z, [("Failed to parse int config 'scrape_delay_seconds': " ++
                  Config.to_string 3000000000)%string])) /\
   Settings.scheduler_delay_seconds (fst (snd (Settings.put_settings (fun _ => None) (Some b) s))) =
    (if Config.in_int_range 3000000000 then 3000000000%Z else 8%Z)).
Proof.
  intros b s.
  assert (H1 : Settings.b_scrape_delay_seconds b = Some 3000000000%Z) by reflexivity.
  assert (H2 : (- 2 ^ 63 <= 3000000000 < 2 ^ 63)%Z) by lia.
  split; [exact H1|]. split; [exact H2|].
  apply (put_settings_scrape_delay (fun _ => None) b s 3000000000 H1 H2).
Defined.

(** Port 2^32 + 25 is accepted and stored as 25. *)
Lemma put_settings_smtp_port_accepted_witness :
  let b := Settings.sample_body 8 4294967321 in
  let s := Config.mkStore [] [] in
  Settings.b_smtp_port b = Some 4294967321%Z /\
  Settings.code (fst (Settings.put_settings (fun _ => None) (Some b) s)) = 200%Z /\
  ((1 <= Run.wrap32 4294967321 <= 65535)%Z /\
   Config.getInt (fst (snd (Settings.put_settings (fun _ => None) (Some b) s))) "smtp_port" 587 =
     (Run.wrap32 4294967321, [])).
Proof.
  intros b s.
  assert (H1 : Settings.b_smtp_port b = Some 4294967321%Z) by reflexivity.
  assert (H2 : Settings.code (fst (Settings.put_settings (fun _ => None) (Some b) s)) = 200%Z)
    by (vm_compute; reflexivity).
  split; [exact H1|]. split; [exact H2|].
  apply (put_settings_smtp_port_accepted (fun _ => None) b s 4294967321 587 H1 H2).
Defined.

(** Port 70000 is rejected after the first three keys were stored. *)
Lemma put_settings_invalid_port_partial_update_witness :
  let b := Settings.sample_body 8 70000 in
  let s := Config.mkStore [] [] in
  Settings.b_smtp_port b = Some 70000%Z /\
  (Run.wrap32 70000 < 1 \/ 65535 < Run.wrap32 70000)%Z /\
  (fst (Settings.put_settings (fun _ => None) (Some b) s) =
     Settings.mkResponse 400 "Invalid SMTP port" /\
   (forall k v, In (k, v) [("scrape_delay_seconds",
                            option_map Config.to_string (Settings.b_scrape_delay_seconds b));
                           ("discord_webhook_url", Settings.b_discord_webhook_url b);
                           ("smtp_server", Settings.b_smtp_server b)] ->
      Config.get (fst (snd (Settings.put_settings (fun _ => None) (Some b) s))) k =
        match v with Some x => Some x | None => Config.get s k end) /\
   (forall k, In k ["smtp_port"; "smtp_user"; "smtp_pass"; "smtp_from"; "smtp_to"] ->
      Config.get (fst (snd (Settings.put_settings (fun _ => None) (Some b) s))) k =
        Config.get s k)).
Proof.
  intros b s.
  assert (H1 : Settings.b_smtp_port b = Some 70000%Z) by reflexivity.
  assert (H2 : (Run.wrap32 70000 < 1 \/ 65535 < Run.wrap32 70000)%Z)
    by (right; vm_compute; reflexivity).
  split; [exact H1|]. split; [exact H2|].
  apply (put_settings_invalid_port_partial_update (fun _ => None) b s 70000 H1 H2).
Defined.

(* ------------------------------------------------------------------ *)
(** ** The release calendar *)

Import Calendar.

Lemma written_app a b : written (a ++ b) = written a ++ written b.
Proof. unfold written. apply flat_map_app. Qed.

Lemma persist_title_dates {R} (env : CalEnv R) rs db k :
  map title_date (written (fst (persist env rs db k))) = map title_date rs.
Proof.
  revert db k; induction rs as [|r rs IH]; intros db k; [reflexivity|].
  cbn [persist].
  destruct (negb (String.eqb (product_url r) "")).
  - destruct (findByUrl env (product_url r) db) as [ex|] eqn:Hf.
    + destruct (repo_update_release env (updated_release ex r (clock env k)) db) as [ok db'].
      destruct (persist env rs db' (S k)) as [tr2 db2] eqn:Hp.
      specialize (IH db' (S k)). rewrite Hp in IH. cbn [fst] in IH.
      cbn [fst]. rewrite written_app. rewrite map_app, IH. reflexivity.
    + destruct (repo_add_release env r db) as [nid db'].
      destruct (persist env rs db' k) as [tr2 db2] eqn:Hp.
      specialize (IH db' k). rewrite Hp in IH. cbn [fst] in IH.
      cbn [fst]. rewrite written_app. rewrite map_app, IH. reflexivity.
  - destruct (repo_add_release env r db) as [nid db'].
    destruct (persist env rs db' k) as [tr2 db2] eqn:Hp.
    specialize (IH db' k). rewrite Hp in IH. cbn [fst] in IH.
    cbn [fst]. rewrite written_app. rewrite map_app, IH. reflexivity.
Qed.

Lemma persist_update_from_find {R} (env : CalEnv R) rs db k u ok :
  In (CUpdate u ok) (fst (persist env rs db k)) ->
  exists url ex j,
    In (CFind url (Some ex)) (fst (persist env rs db k)) /\
    r_id u = r_id ex /\ product_url u = product_url ex /\
    notes u = notes ex /\ created_at u = created_at ex /\
    r_last_updated u = clock env j /\ (k <= j)%nat.
Proof.
  revert db k; induction rs as [|r rs IH]; intros db k Hin; [destruct Hin|].
  cbn [persist] in Hin |- *.
  destruct (negb (String.eqb (product_url r) "")).
  - destruct (findByUrl env (product_url r) db) as [ex|] eqn:Hf.
    + destruct (repo_update_release env (updated_release ex r (clock env k)) db) as [ok' db'].
      destruct (persist env rs db' (S k)) as [tr2 db2] eqn:Hp.
      specialize (IH db' (S k)). rewrite Hp in IH. cbn [fst] in IH, Hin |- *.
      apply in_app_or in Hin as [Hin|Hin].
      * destruct Hin as [Hin|[Hin|[]]]; [discriminate|].
        injection Hin as <- _.
        exists (product_url r), ex, k. cbn. repeat split; auto.
      * destruct (IH Hin) as (url & ex' & j & Hf' & H1 & H2 & H3 & H4 & H5 & H6).
        exists url, ex', j. repeat split; auto; [apply in_or_app; right; exact Hf'|lia].
    + destruct (repo_add_release env r db) as [nid db'].
      destruct (persist env rs db' k) as [tr2 db2] eqn:Hp.
      specialize (IH db' k). rewrite Hp in IH. cbn [fst] in IH, Hin |- *.
      apply in_app_or in Hin as [Hin|Hin].
      * destruct Hin as [Hin|[Hin|[]]]; discriminate.
      * destruct (IH Hin) as (url & ex' & j & Hf' & H1 & H2 & H3 & H4 & H5 & H6).
        exists url, ex', j. repeat split; auto. apply in_or_app; right; exact Hf'.
  - destruct (repo_add_release env r db) as [nid db'].
    destruct (persist env rs db' k) as [tr2 db2] eqn:Hp.
    specialize (IH db' k). rewrite Hp in IH. cbn [fst] in IH, Hin |- *.
    apply in_app_or in Hin as [Hin|Hin].
    * destruct Hin as [Hin|[]]; discriminate.
    * destruct (IH Hin) as (url & ex' & j & Hf' & H1 & H2 & H3 & H4 & H5 & H6).
      exists url, ex', j. repeat split; auto. apply in_or_app; right; exact Hf'.
Qed.

(** With [bluray_calendar_enabled] parsed as 0, the calendar scrape returns
    0, leaves the database as it was and calls no repository method. *)
Theorem scrapeReleaseCalendar_disabled {R} (env : CalEnv R) cfg db :
  fst (Config.getInt cfg "bluray_calendar_enabled" 1) = 0%Z ->
  fst (fst (scrapeReleaseCalendar env cfg db)) = 0%Z /\
  snd (scrapeReleaseCalendar env cfg db) = db /\
  forallb (fun e => negb (is_repo_call e)) (snd (fst (scrapeReleaseCalendar env cfg db))) = true.
Proof.
  intros H. unfold scrapeReleaseCalendar.
  destruct (Config.getInt cfg "bluray_calendar_enabled" 1) as [en w1].
  cbn [fst] in H. subst en. cbn. repeat split.
  induction w1 as [|x w1 IH]; [reflexivity|exact IH].
Qed.

(** When the calendar scraper throws or finds no release, the scrape
    returns 0, leaves the database as it was and calls no repository
    method. *)
Theorem scrapeReleaseCalendar_fetch_failed {R} (env : CalEnv R) cfg db :
  fst (Config.getInt cfg "bluray_calendar_enabled" 1) <> 0%Z ->
  (fetch env (Config.get_default cfg "bluray_calendar_url"
                "https://www.blu-ray.com/movies/releasedates.php") = Fetched [] \/
   exists what, fetch env (Config.get_default cfg "bluray_calendar_url"
                "https://www.blu-ray.com/movies/releasedates.php") = FetchThrew what) ->
  fst (fst (scrapeReleaseCalendar env cfg db)) = 0%Z /\
  snd (scrapeReleaseCalendar env cfg db) = db /\
  forallb (fun e => negb (is_repo_call e)) (snd (fst (scrapeReleaseCalendar env cfg db))) = true.
Proof.
  intros Hen Hf. unfold scrapeReleaseCalendar.
  destruct (Config.getInt cfg "bluray_calendar_enabled" 1) as [en w1].
  cbn [fst] in Hen. apply Z.eqb_neq in Hen. rewrite Hen.
  destruct (Config.getInt cfg "bluray_calendar_days_ahead" 90) as [d w2].
  assert (Hw : forallb (fun e => negb (is_repo_call e)) (map CWarning (w1 ++ w2)) = true)
    by (induction (w1 ++ w2) as [|x l IH]; [reflexivity|exact IH]).
  destruct Hf as [Hf|[what Hf]]; rewrite Hf; cbn [fst snd];
    (split; [reflexivity|split; [reflexivity|]]);
    rewrite forallb_app, Hw; reflexivity.
Qed.

Lemma cache_release_title_dates {R} (env : CalEnv R) l :
  map title_date (map (cache_release env) l) = map title_date l.
Proof.
  induction l as [|r l IH]; [reflexivity|]. cbn [map]. rewrite IH. f_equal.
  unfold cache_release. destruct (String.eqb (r_image_url r) ""); [reflexivity|].
  destruct (cal_cache_image env (r_image_url r)); reflexivity.
Qed.

Lemma scrapeReleaseCalendar_shape {R} (env : CalEnv R) cfg db :
  (exists w, snd (fst (scrapeReleaseCalendar env cfg db)) = map CWarning w /\
             fst (fst (scrapeReleaseCalendar env cfg db)) = 0%Z) \/
  (exists w what, snd (fst (scrapeReleaseCalendar env cfg db)) =
                  map CWarning w ++ [CError what] /\
                  fst (fst (scrapeReleaseCalendar env cfg db)) = 0%Z) \/
  (exists w releases,
     fst (Config.getInt cfg "bluray_calendar_enabled" 1) <> 0%Z /\
     fetch env (Config.get_default cfg "bluray_calendar_url"
                  "https://www.blu-ray.com/movies/releasedates.php") = Fetched releases /\
     releases <> [] /\
     let now := clock env 0 in
     let filtered := map (cache_release env)
       (filter (in_window now (cutoff_date now (fst (Config.getInt cfg "bluray_calendar_days_ahead" 90))))
          releases) in
     snd (fst (scrapeReleaseCalendar env cfg db)) =
       map CWarning w ++ CRemoveOlderThan now ::
         fst (persist env filtered (removeOlderThan env now db) 1) /\
     fst (fst (scrapeReleaseCalendar env cfg db)) =
       Run.wrap32 (Z.of_nat (List.length filtered))).
Proof.
  unfold scrapeReleaseCalendar.
  destruct (Config.getInt cfg "bluray_calendar_enabled" 1) as [en w1].
  destruct (en =? 0)%Z eqn:Hen.
  { left. exists w1. split; reflexivity. }
  destruct (Config.getInt cfg "bluray_calendar_days_ahead" 90) as [d w2].
  destruct (fetch env (Config.get_default cfg "bluray_calendar_url"
                         "https://www.blu-ray.com/movies/releasedates.php"))
    as [[|r rs]|what] eqn:Hf.
  - left. exists (w1 ++ w2 ++ ["No releases found in calendar"]).
    cbn [fst snd]. rewrite ?map_app, ?app_assoc. split; reflexivity.
  - right; right. exists (w1 ++ w2), (r :: rs).
    split; [cbn [fst]; apply Z.eqb_neq; exact Hen|].
    split; [reflexivity|]. split; [discriminate|].
    cbn [fst].
    destruct (persist env _ _ 1) as [tr db2]. split; reflexivity.
  - right; left. exists (w1 ++ w2), ("Failed to scrape release calendar: " ++ what)%string.
    split; reflexivity.
Qed.

(** On a non-empty fetch, the scrape first removes the rows older than the
    first clock reading [now], then writes exactly one row per release dated
    within [now, cutoff], in the scraped order with its title and date, and
    returns the number of these releases (narrowed to [int]). *)
Theorem scrapeReleaseCalendar_writes_window {R} (env : CalEnv R) cfg db releases :
  fst (Config.getInt cfg "bluray_calendar_enabled" 1) <> 0%Z ->
  fetch env (Config.get_default cfg "bluray_calendar_url"
               "https://www.blu-ray.com/movies/releasedates.php") = Fetched releases ->
  releases <> [] ->
  let now := clock env 0 in
  let window := filter (in_window now
                  (cutoff_date now (fst (Config.getInt cfg "bluray_calendar_days_ahead" 90))))
                  releases in
  exists w tr,
    snd (fst (scrapeReleaseCalendar env cfg db)) = map CWarning w ++ CRemoveOlderThan now :: tr /\
    fst (fst (scrapeReleaseCalendar env cfg db)) = Run.wrap32 (Z.of_nat (List.length window)) /\
    map title_date (written tr) = map title_date window.
Proof.
  intros Hen Hf Hne now window.
  destruct (scrapeReleaseCalendar_shape env cfg db)
    as [(w & Htr & Hc)|[(w & what & Htr & Hc)|(w & rs & Hen' & Hf' & Hne' & Htr & Hc)]].
  - exfalso. unfold scrapeReleaseCalendar in Htr.
    destruct (Config.getInt cfg "bluray_calendar_enabled" 1) as [en w1].
    cbn [fst] in Hen. apply Z.eqb_neq in Hen. rewrite Hen in Htr.
    destruct (Config.getInt cfg "bluray_calendar_days_ahead" 90) as [d w2].
    rewrite Hf in Htr. destruct releases as [|r rs']; [contradiction|].
    destruct (persist env _ _ 1) as [tr db2].
    cbn [fst snd] in Htr.
    assert (Hin : In (CRemoveOlderThan (clock env 0)) (map CWarning w)).
    { rewrite <- Htr. apply in_or_app. right. left. reflexivity. }
    apply in_map_iff in Hin as (x & Hx & _). discriminate.
  - exfalso. unfold scrapeReleaseCalendar in Htr.
    destruct (Config.getInt cfg "bluray_calendar_enabled" 1) as [en w1].
    cbn [fst] in Hen. apply Z.eqb_neq in Hen. rewrite Hen in Htr.
    destruct (Config.getInt cfg "bluray_calendar_days_ahead" 90) as [d w2].
    rewrite Hf in Htr. destruct releases as [|r rs']; [contradiction|].
    destruct (persist env _ _ 1) as [tr db2].
    cbn [fst snd] in Htr.
    assert (Hin : In (CRemoveOlderThan (clock env 0)) (map CWarning w ++ [CError what])).
    { rewrite <- Htr. apply in_or_app. right. left. reflexivity. }
    apply in_app_or in Hin as [Hin|[Hin|[]]]; [|discriminate].
    apply in_map_iff in Hin as (x & Hx & _). discriminate.
  - rewrite Hf in Hf'. injection Hf' as <-.
    eexists w, _. split; [exact Htr|]. split.
    + rewrite Hc, length_map. reflexivity.
    + rewrite persist_title_dates, cache_release_title_dates. reflexivity.
Qed.

(** Every row the scrape updates is a copy of a row [findByUrl] returned in
    the same run: it keeps that row's id, product URL, notes and creation
    time, and its [last_updated] is a later clock reading than [now]. *)
Theorem scrapeReleaseCalendar_update_keeps_identity {R} (env : CalEnv R) cfg db u ok :
  In (CUpdate u ok) (snd (fst (scrapeReleaseCalendar env cfg db))) ->
  exists url ex j,
    In (CFind url (Some ex)) (snd (fst (scrapeReleaseCalendar env cfg db))) /\
    r_id u = r_id ex /\ product_url u = product_url ex /\
    notes u = notes ex /\ created_at u = created_at ex /\
    r_last_updated u = clock env j /\ (1 <= j)%nat.
Proof.
  intros Hin.
  destruct (scrapeReleaseCalendar_shape env cfg db)
    as [(w & Htr & _)|[(w & what & Htr & _)|(w & rs & _ & _ & _ & Htr & _)]];
    rewrite Htr in Hin |- *.
  - apply in_map_iff in Hin as (x & Hx & _). discriminate.
  - apply in_app_or in Hin as [Hin|[Hin|[]]]; [|discriminate].
    apply in_map_iff in Hin as (x & Hx & _). discriminate.
  - apply in_app_or in Hin as [Hin|[Hin|Hin]];
      [apply in_map_iff in Hin as (x & Hx & _); discriminate|discriminate|].
    destruct (persist_update_from_find env _ _ 1 u ok Hin)
      as (url & ex & j & Hf & H1 & H2 & H3 & H4 & H5 & H6).
    exists url, ex, j. repeat split; auto.
    apply in_or_app. right. right. exact Hf.
Qed.

(** Without 64-bit overflow, a release is kept exactly when its date lies
    between [now] and [now] plus [days_ahead] days of nanoseconds. *)
Theorem in_window_cutoff_exact now days_ahead r :
  (0 <= days_ahead)%Z ->
  (- 2 ^ 63 <= now)%Z ->
  (now + days_ahead * 86400000000000 < 2 ^ 63)%Z ->
  (days_ahead <= 106751)%Z ->
  in_window now (cutoff_date now days_ahead) r =
    ((now <=? release_date r) && (release_date r <=? now + days_ahead * 86400000000000))%Z.
Proof.
  intros H0 H1 H2 H3.
  assert (Hc : cutoff_date now days_ahead = (now + days_ahead * 86400000000000)%Z).
  { unfold cutoff_date, wrap64, hour_ns.
    rewrite (Z.mod_small (24 * days_ahead + 2 ^ 63)) by lia.
    replace (24 * days_ahead + 2 ^ 63 - 2 ^ 63)%Z with (24 * days_ahead)%Z by lia.
    rewrite (Z.mod_small (24 * days_ahead * 3600000000000 + 2 ^ 63)) by lia.
    replace (24 * days_ahead * 3600000000000 + 2 ^ 63 - 2 ^ 63)%Z
      with (days_ahead * 86400000000000)%Z by lia.
    rewrite Z.mod_small by lia. lia. }
  unfold in_window. rewrite Hc. reflexivity.
Qed.

Lemma scrapeReleaseCalendar_disabled_witness :
  let cfg := Config.mkStore [("bluray_calendar_enabled", "0")] [] in
  fst (Config.getInt cfg "bluray_calendar_enabled" 1) = 0%Z /\
  (fst (fst (scrapeReleaseCalendar (sample_env sample_fetch) cfg tt)) = 0%Z /\
   snd (scrapeReleaseCalendar (sample_env sample_fetch) cfg tt) = tt /\
   forallb (fun e => negb (is_repo_call e))
     (snd (fst (scrapeReleaseCalendar (sample_env sample_fetch) cfg tt))) = true).
Proof.
  intros cfg.
  assert (H : fst (Config.getInt cfg "bluray_calendar_enabled" 1) = 0%Z)
    by (vm_compute; reflexivity).
  split; [exact H|].
  apply (scrapeReleaseCalendar_disabled (sample_env sample_fetch) cfg tt H).
Defined.

Lemma scrapeReleaseCalendar_fetch_failed_witness :
  let cfg := Config.mkStore [] [] in
  let env := sample_env (FetchThrew "Connection timed out") in
  fst (fst (scrapeReleaseCalendar env cfg tt)) = 0%Z /\
  snd (scrapeReleaseCalendar env cfg tt) = tt /\
  forallb (fun e => negb (is_repo_call e)) (snd (fst (scrapeReleaseCalendar env cfg tt))) = true.
Proof.
  intros cfg env.
  apply (scrapeReleaseCalendar_fetch_failed env cfg tt).
  - vm_compute. discriminate.
  - right. exists "Connection timed out". reflexivity.
Defined.

Lemma scrapeReleaseCalendar_writes_window_witness :
  let cfg := Config.mkStore [] [] in
  let env := sample_env sample_fetch in
  let now := clock env 0 in
  let window := filter (in_window now
                  (cutoff_date now (fst (Config.getInt cfg "bluray_calendar_days_ahead" 90))))
                  [sample_release; sample_past_release] in
  exists w tr,
    snd (fst (scrapeReleaseCalendar env cfg tt)) = map CWarning w ++ CRemoveOlderThan now :: tr /\
    fst (fst (scrapeReleaseCalendar env cfg tt)) = Run.wrap32 (Z.of_nat (List.length window)) /\
    map title_date (written tr) = map title_date window.
Proof.
  intros cfg env.
  apply (scrapeReleaseCalendar_writes_window env cfg tt [sample_release; sample_past_release]).
  - vm_compute. discriminate.
  - reflexivity.
  - discriminate.
Defined.

Lemma scrapeReleaseCalendar_update_keeps_identity_witness :
  let cfg := Config.mkStore [] [] in
  let env := sample_env sample_fetch in
  let u := updated_release sample_row sample_release (sample_now + 1)%Z in
  In (CUpdate u true) (snd (fst (scrapeReleaseCalendar env cfg tt))) /\
  exists url ex j,
    In (CFind url (Some ex)) (snd (fst (scrapeReleaseCalendar env cfg tt))) /\
    r_id u = r_id ex /\ product_url u = product_url ex /\
    notes u = notes ex /\ created_at u = created_at ex /\
    r_last_updated u = clock env j /\ (1 <= j)%nat.
Proof.
  intros cfg env u.
  assert (H : In (CUpdate u true) (snd (fst (scrapeReleaseCalendar env cfg tt))))
    by (vm_compute; right; right; left; reflexivity).
  split; [exact H|].
  apply (scrapeReleaseCalendar_update_keeps_identity env cfg tt u true H).
Defined.

Lemma in_window_cutoff_exact_witness :
  (0 <= 90)%Z /\ (- 2 ^ 63 <= sample_now)%Z /\
  (sample_now + 90 * 86400000000000 < 2 ^ 63)%Z /\ (90 <= 106751)%Z /\
  in_window sample_now (cutoff_date sample_now 90) sample_release =
    ((sample_now <=? release_date sample_release) &&
     (release_date sample_release <=? sample_now + 90 * 86400000000000))%Z.
Proof.
  assert (H1 : (- 2 ^ 63 <= sample_now)%Z) by (unfold sample_now; lia).
  assert (H2 : (sample_now + 90 * 86400000000000 < 2 ^ 63)%Z) by (unfold sample_now; lia).
  split; [lia|]. split; [exact H1|]. split; [exact H2|]. split; [lia|].
  apply (in_window_cutoff_exact sample_now 90 sample_release); [lia|exact H1|exact H2|lia].
Defined.

(* ------------------------------------------------------------------ *)
(** ** Input validation and the wishlist query *)

Import Validation.

Lemma code_chr_eq c n : code c = n -> c = chr n.
Proof. intros <-. unfold chr, code. symmetry. apply Ascii.ascii_nat_embedding. Qed.

Lemma string_forall_app p a b :
  string_forall p (a ++ b)%string = string_forall p a && string_forall p b.
Proof. induction a as [|c a IH]; [reflexivity|]. cbn. rewrite IH. apply andb_assoc. Qed.

(** Case split of a goal on the [code c =? n] tests of a character. *)
Ltac split_code c :=
  repeat match goal with
  | |- context [ (code c =? ?n)%nat ] =>
      let E := fresh "E" in
      destruct (code c =? n)%nat eqn:E;
      [apply Nat.eqb_eq, code_chr_eq in E; subst c|]
  end.

Lemma esc_html_safe c :
  string_forall (fun c => negb (existsb (Nat.eqb (code c)) [60; 62; 34; 39])%nat) (esc_html c)
  = true.
Proof.
  unfold esc_html. split_code c; try reflexivity.
  cbn. rewrite E0, E1, E2, E3. reflexivity.
Qed.

Lemma esc_html_app_inj c1 c2 x y :
  (esc_html c1 ++ x = esc_html c2 ++ y)%string -> c1 = c2 /\ x = y.
Proof.
  unfold esc_html. split_code c1; split_code c2;
    intros H; cbn in H; inversion H; subst; try (split; reflexivity);
    cbn in *; discriminate.
Qed.

(** [escapeHtml] loses nothing: different strings have different escapes. *)
Theorem escapeHtml_injective s1 s2 : escapeHtml s1 = escapeHtml s2 -> s1 = s2.
Proof.
  revert s2; induction s1 as [|c1 r1 IH]; intros [|c2 r2] H.
  - reflexivity.
  - exfalso. cbn [escapeHtml] in H. revert H. unfold esc_html. split_code c2; intros H; cbn in H; discriminate.
  - exfalso. cbn [escapeHtml] in H. revert H. unfold esc_html. split_code c1; intros H; cbn in H; discriminate.
  - cbn [escapeHtml] in H. destruct (esc_html_app_inj _ _ _ _ H) as [Hc Hr].
    subst c2. f_equal. apply IH, Hr.
Qed.

(** No output of [escapeHtml] contains [<], [>], a double quote or an
    apostrophe. *)
Theorem escapeHtml_no_markup s :
  string_forall (fun c => negb (existsb (Nat.eqb (code c)) [60; 62; 34; 39])%nat)
    (escapeHtml s) = true.
Proof.
  induction s as [|c r IH]; [reflexivity|]. cbn [escapeHtml].
  rewrite string_forall_app, esc_html_safe, IH. reflexivity.
Qed.

Lemma esc_js_literal q c t :
  q = 39%nat \/ q = 34%nat ->
  js_literal_body q (esc_js c ++ t)%string = js_literal_body q t.
Proof.
  intros Hq. unfold esc_js. split_code c;
    try (destruct Hq as [-> | ->]; reflexivity).
  cbn [append js_literal_body]. rewrite E.
  destruct Hq as [-> | ->]; rewrite ?E0, ?E1, ?E2, ?E3; reflexivity.
Qed.

Lemma esc_js_no_angle c :
  string_forall (fun c => negb ((code c =? 60) || (code c =? 62))%nat) (esc_js c) = true.
Proof.
  unfold esc_js. split_code c; try reflexivity.
  cbn. rewrite E5, E6. reflexivity.
Qed.

Lemma esc_js_app_inj c1 c2 x y :
  (esc_js c1 ++ x = esc_js c2 ++ y)%string -> c1 = c2 /\ x = y.
Proof.
  unfold esc_js. split_code c1; split_code c2;
    intros H; cbn in H; inversion H; subst; try (split; reflexivity);
    cbn in *; discriminate.
Qed.

(** Every output of [escapeJs] stays inside a single- or double-quoted
    JavaScript string literal (no unescaped delimiter, line break or trailing
    backslash) and contains neither [<] nor [>]. *)
Theorem escapeJs_literal_safe s :
  js_literal_body 39 (escapeJs s) = true /\
  js_literal_body 34 (escapeJs s) = true /\
  string_forall (fun c => negb ((code c =? 60) || (code c =? 62))%nat) (escapeJs s) = true.
Proof.
  induction s as [|c r [IH1 [IH2 IH3]]]; [repeat split|].
  cbn [escapeJs]. rewrite !esc_js_literal by auto.
  rewrite string_forall_app, esc_js_no_angle, IH3. auto.
Qed.

(** [escapeJs] loses nothing: different strings have different escapes. *)
Theorem escapeJs_injective s1 s2 : escapeJs s1 = escapeJs s2 -> s1 = s2.
Proof.
  revert s2; induction s1 as [|c1 r1 IH]; intros [|c2 r2] H.
  - reflexivity.
  - exfalso. cbn [escapeJs] in H. revert H. unfold esc_js. split_code c2; intros H; cbn in H; discriminate.
  - exfalso. cbn [escapeJs] in H. revert H. unfold esc_js. split_code c1; intros H; cbn in H; discriminate.
  - cbn [escapeJs] in H. destruct (esc_js_app_inj _ _ _ _ H) as [Hc Hr].
    subst c2. f_equal. apply IH, Hr.
Qed.

Lemma str_append_assoc a b c : (a ++ (b ++ c) = (a ++ b) ++ c)%string.
Proof. induction a as [|x a IH]; cbn; [reflexivity|rewrite IH; reflexivity]. Qed.

Lemma str_length_app a b : String.length (a ++ b)%string = (String.length a + String.length b)%nat.
Proof. induction a as [|x a IH]; cbn; [reflexivity|rewrite IH; reflexivity]. Qed.

Lemma string_map_length f s : String.length (string_map f s) = String.length s.
Proof. induction s as [|x s IH]; cbn; [reflexivity|rewrite IH; reflexivity]. Qed.

Lemma substring_0_length n s : String.length (substring 0 n s) = Nat.min n (String.length s).
Proof.
  revert n; induction s as [|x s IH]; intros [|n]; cbn; try reflexivity.
  rewrite IH. reflexivity.
Qed.

Lemma sanitize_loop_spec s max acc :
  (String.length acc <= max)%nat ->
  sanitize_loop s max acc =
    (acc ++ string_map log_char (substring 0 (max - String.length acc) s))%string.
Proof.
  revert acc; induction s as [|c r IH]; intros acc Hacc.
  - cbn. destruct (max - String.length acc)%nat; cbn; symmetry; apply append_empty_r.
  - cbn [sanitize_loop].
    destruct (String.length acc <? max)%nat eqn:Hlt.
    + apply Nat.ltb_lt in Hlt.
      rewrite IH by (rewrite str_length_app; cbn; lia).
      rewrite str_length_app. cbn [String.length].
      replace (max - String.length acc)%nat with (S (max - (String.length acc + 1)))%nat by lia.
      cbn [substring string_map]. rewrite <- str_append_assoc. reflexivity.
    + apply Nat.ltb_ge in Hlt.
      replace (max - String.length acc)%nat with 0%nat by lia.
      cbn. symmetry. apply append_empty_r.
Qed.

(** [sanitizeForLog] keeps the first [max_length] characters with control
    characters replaced by spaces, and appends [...] exactly when the input
    is longer. *)
Theorem sanitizeForLog_closed_form str max_length :
  sanitizeForLog str max_length =
    (string_map log_char (substring 0 max_length str) ++
     (if (max_length <? String.length str)%nat then "..." else ""))%string.
Proof.
  unfold sanitizeForLog. rewrite sanitize_loop_spec by (cbn; lia).
  cbn [String.length append]. rewrite Nat.sub_0_r. reflexivity.
Qed.

Lemma string_forall_map p f s :
  (forall c, p (f c) = true) -> string_forall p (string_map f s) = true.
Proof. intros H; induction s as [|c s IH]; cbn; [reflexivity|rewrite H, IH; reflexivity]. Qed.

(** The output of [sanitizeForLog] has no character below code 32, and its
    length is [min max_length (length str)], plus 3 when truncated. *)
Theorem sanitizeForLog_printable str max_length :
  string_forall (fun c => (32 <=? code c)%nat) (sanitizeForLog str max_length) = true /\
  String.length (sanitizeForLog str max_length) =
    (Nat.min max_length (String.length str) +
     (if (max_length <? String.length str)%nat then 3 else 0))%nat.
Proof.
  rewrite sanitizeForLog_closed_form. split.
  - rewrite string_forall_app, string_forall_map.
    + destruct (max_length <? String.length str)%nat; reflexivity.
    + intros c. unfold log_char.
      destruct ((code c =? 10)%nat || (code c =? 13)%nat || (code c =? 9)%nat || (code c <? 32)%nat) eqn:E.
      * reflexivity.
      * apply Nat.leb_le. apply orb_false_iff in E as [_ E]. apply Nat.ltb_ge in E. exact E.
  - rewrite str_length_app, string_map_length, substring_0_length.
    destruct (max_length <? String.length str)%nat; reflexivity.
Qed.

Lemma hex_color_chars color :
  isValidHexColor color = true ->
  string_forall (fun c => (code c =? 35)%nat || is_xdigit c) color = true.
Proof.
  destruct color as [|c rest]; [discriminate|]. cbn [isValidHexColor].
  intros H. apply andb_prop in H as [H Hx]. apply andb_prop in H as [Hc _].
  cbn [string_forall]. rewrite Hc. cbn.
  induction rest as [|x rest IH]; [reflexivity|].
  cbn in Hx |- *. apply andb_prop in Hx as [Hx1 Hx2]. rewrite Hx1, orb_true_r. cbn. apply IH, Hx2.
Qed.

(** With a valid default, [sanitizeColor] always returns a valid colour,
    made of [#] and hexadecimal digits only. *)
Theorem sanitizeColor_safe color default_color :
  isValidHexColor default_color = true ->
  isValidHexColor (sanitizeColor color default_color) = true /\
  string_forall (fun c => (code c =? 35)%nat || is_xdigit c)
    (sanitizeColor color default_color) = true.
Proof.
  intros Hd. unfold sanitizeColor.
  destruct (isValidHexColor color) eqn:E;
    (split; [assumption|apply hex_color_chars; assumption]).
Qed.

Import WishlistQuery.

(** The SQL text of [findAll] is built only from fixed fragments: each
    condition is one of four constants and the sort clause one of six;
    the source and the search text reach the query as bound parameters. *)
Theorem findAll_sql_fixed_fragments p :
  Forall (fun c => In c ["in_stock = 1"; "in_stock = 0"; "source = ?"; "title LIKE ?"])
    (conditions p) /\
  In (fst (order_clause p))
    ["ORDER BY created_at DESC"; "ORDER BY current_price DESC"; "ORDER BY current_price ASC";
     "ORDER BY title DESC"; "ORDER BY title ASC"; "ORDER BY created_at ASC"].
Proof.
  split.
  - unfold conditions. apply Forall_app. split; [|apply Forall_app; split].
    + unfold stock_conditions.
      destruct (String.eqb (filter_stock p) ""); [constructor|].
      destruct (negb _); [constructor|].
      destruct (String.eqb (filter_stock p) "in_stock");
        [constructor; [left; reflexivity|constructor]|].
      destruct (String.eqb (filter_stock p) "out_of_stock");
        [constructor; [right; left; reflexivity|constructor]|constructor].
    + destruct (String.eqb (filter_source p) "");
        [constructor|constructor; [right; right; left; reflexivity|constructor]].
    + destruct (String.eqb (search_query p) "");
        [constructor|constructor; [right; right; right; left; reflexivity|constructor]].
  - unfold order_clause.
    destruct (String.eqb (sort_by p) ""); [left; reflexivity|].
    destruct (negb (isValidValue (sort_by p) VALID_SORT_FIELDS)); [left; reflexivity|].
    assert (Hd : forall d (w : list string), (d = "DESC" \/ d = "ASC") ->
      In (fst (if String.eqb (sort_by p) "price" then ("ORDER BY current_price " ++ d)%string
           else if String.eqb (sort_by p) "title" then ("ORDER BY title " ++ d)%string
           else if String.eqb (sort_by p) "date" then ("ORDER BY created_at " ++ d)%string
           else "ORDER BY created_at DESC", w))
        ["ORDER BY created_at DESC"; "ORDER BY current_price DESC"; "ORDER BY current_price ASC";
         "ORDER BY title DESC"; "ORDER BY title ASC"; "ORDER BY created_at ASC"]).
    { intros d w Hdw. cbn [fst].
      destruct (String.eqb (sort_by p) "price");
        [destruct Hdw as [-> | ->]; cbn; tauto|].
      destruct (String.eqb (sort_by p) "title");
        [destruct Hdw as [-> | ->]; cbn; tauto|].
      destruct (String.eqb (sort_by p) "date");
        [destruct Hdw as [-> | ->]; cbn; tauto|cbn; tauto]. }
    destruct (String.eqb (sort_order p) ""); [apply Hd; left; reflexivity|].
    destruct (negb (isValidValue (sort_order p) VALID_SORT_ORDERS)); [apply Hd; left; reflexivity|].
    apply Hd. destruct (String.eqb (sort_order p) "desc"); [left|right]; reflexivity.
Qed.

(** A [sort_order] such as [DESC] passes the case-insensitive check but is
    compared case-sensitively with [desc]: the rows are sorted ascending,
    with no warning. *)
Theorem order_clause_mixed_case_desc_ascending p col :
  In (sort_by p, col) [("price", "current_price"); ("title", "title"); ("date", "created_at")] ->
  toLower (sort_order p) = "desc" ->
  sort_order p <> "desc" ->
  order_clause p = (("ORDER BY " ++ col ++ " ASC")%string, []).
Proof.
  intros Hin Hlow Hne. unfold order_clause.
  assert (Hso : String.eqb (sort_order p) "" = false).
  { apply String.eqb_neq. intros E. rewrite E in Hlow. discriminate. }
  assert (Hv : isValidValue (sort_order p) VALID_SORT_ORDERS = true)
    by (unfold isValidValue; rewrite Hlow; reflexivity).
  assert (Hd : String.eqb (sort_order p) "desc" = false) by (apply String.eqb_neq; exact Hne).
  rewrite Hso, Hv, Hd. cbn [negb].
  destruct Hin as [E|[E|[E|[]]]]; injection E as E1 E2; subst col; rewrite <- E1; reflexivity.
Qed.

Lemma not_in_sort_fields s :
  ~ In s VALID_SORT_FIELDS ->
  String.eqb s "price" = false /\ String.eqb s "title" = false /\ String.eqb s "date" = false.
Proof.
  intros H. repeat split; apply String.eqb_neq; intros ->; apply H; cbn; tauto.
Qed.

(** A [sort_by] such as [Price] passes the case-insensitive check but matches
    no case-sensitive branch: the default order is used, and the
    [Invalid sort_by] warning is not logged. *)
Theorem order_clause_mixed_case_sort_by_ignored p :
  isValidValue (sort_by p) VALID_SORT_FIELDS = true ->
  ~ In (sort_by p) VALID_SORT_FIELDS ->
  fst (order_clause p) = "ORDER BY created_at DESC" /\
  ~ In ("Invalid sort_by value: " ++ sort_by p ++ ", using default")%string
      (snd (order_clause p)).
Proof.
  intros Hv Hn. destruct (not_in_sort_fields _ Hn) as (E1 & E2 & E3).
  unfold order_clause.
  assert (He : String.eqb (sort_by p) "" = false).
  { apply String.eqb_neq. intros E. rewrite E in Hv. discriminate. }
  rewrite He, Hv. cbn [negb].
  destruct (String.eqb (sort_order p) "").
  { rewrite E1, E2, E3. split; [reflexivity|intros []]. }
  destruct (negb (isValidValue (sort_order p) VALID_SORT_ORDERS)).
  - rewrite E1, E2, E3. split; [reflexivity|].
    intros [H|[]]. discriminate H.
  - rewrite E1, E2, E3. split; [reflexivity|intros []].
Qed.

(** A [filter_stock] such as [IN_STOCK] passes the case-insensitive check but
    matches no branch: no stock condition is applied and nothing is
    logged. *)
Theorem stock_conditions_mixed_case_ignored p :
  isValidValue (filter_stock p) VALID_STOCK_FILTERS = true ->
  ~ In (filter_stock p) VALID_STOCK_FILTERS ->
  stock_conditions p = ([], []).
Proof.
  intros Hv Hn. unfold stock_conditions.
  assert (He : String.eqb (filter_stock p) "" = false).
  { apply String.eqb_neq. intros E. rewrite E in Hv. discriminate. }
  assert (E1 : String.eqb (filter_stock p) "in_stock" = false)
    by (apply String.eqb_neq; intros E; apply Hn; rewrite E; cbn; tauto).
  assert (E2 : String.eqb (filter_stock p) "out_of_stock" = false)
    by (apply String.eqb_neq; intros E; apply Hn; rewrite E; cbn; tauto).
  rewrite He, Hv, E1, E2. reflexivity.
Qed.

(** Without [int] overflow in [total_pages], [has_next] holds exactly when
    rows remain after the first [page * page_size]. *)
Theorem has_next_iff_items_remain total page ps :
  (0 <= total)%Z -> (0 < ps)%Z -> (total + ps - 1 <= 2147483647)%Z -> (0 <= page)%Z ->
  has_next (mkResult total page ps) = true <-> (page * ps < total)%Z.
Proof.
  intros Ht Hp Hb Hpg. unfold has_next, total_pages. cbn [res_page res_page_size total_count].
  replace (ps =? 0)%Z with false by (symmetry; apply Z.eqb_neq; lia).
  unfold Run.wrap32.
  rewrite Z.mod_small by lia.
  replace (total + ps - 1 + 2 ^ 31 - 2 ^ 31)%Z with (total + ps - 1)%Z by lia.
  rewrite Z.quot_div_nonneg by lia.
  rewrite Z.ltb_lt.
  pose proof (Z.div_mod (total + ps - 1) ps ltac:(lia)) as Hdm.
  pose proof (Z.mod_pos_bound (total + ps - 1) ps Hp) as Hm.
  set (q := ((total + ps - 1) / ps)%Z) in *.
  set (r := ((total + ps - 1) mod ps)%Z) in *.
  split; intros H; nia.
Qed.

Lemma escapeHtml_injective_witness :
  let s := "<b>Tom & Jerry's</b>" in
  escapeHtml s = escapeHtml s /\ s = s.
Proof.
  intros s. assert (H : escapeHtml s = escapeHtml s) by reflexivity.
  split; [exact H|]. apply (escapeHtml_injective s s H).
Defined.

Lemma escapeJs_injective_witness :
  let s := "it's <script>" in
  escapeJs s = escapeJs s /\ s = s.
Proof.
  intros s. assert (H : escapeJs s = escapeJs s) by reflexivity.
  split; [exact H|]. apply (escapeJs_injective s s H).
Defined.

Lemma sanitizeColor_safe_witness :
  isValidHexColor "#667eea" = true /\
  (isValidHexColor (sanitizeColor "red;} body {" "#667eea") = true /\
   string_forall (fun c => (code c =? 35)%nat || is_xdigit c)
     (sanitizeColor "red;} body {" "#667eea") = true).
Proof.
  assert (H : isValidHexColor "#667eea" = true) by reflexivity.
  split; [exact H|]. apply (sanitizeColor_safe "red;} body {" "#667eea" H).
Defined.

Lemma order_clause_mixed_case_desc_ascending_witness :
  let p := mkParams 1 20 "price" "DESC" "" "" "" in
  In (sort_by p, "current_price") [("price", "current_price"); ("title", "title"); ("date", "created_at")] /\
  toLower (sort_order p) = "desc" /\ sort_order p <> "desc" /\
  order_clause p = (("ORDER BY " ++ "current_price" ++ " ASC")%string, []).
Proof.
  intros p.
  assert (H1 : In (sort_by p, "current_price")
                 [("price", "current_price"); ("title", "title"); ("date", "created_at")])
    by (left; reflexivity).
  assert (H2 : toLower (sort_order p) = "desc") by (vm_compute; reflexivity).
  assert (H3 : sort_order p <> "desc") by discriminate.
  split; [exact H1|]. split; [exact H2|]. split; [exact H3|].
  apply (order_clause_mixed_case_desc_ascending p "current_price" H1 H2 H3).
Defined.

Lemma order_clause_mixed_case_sort_by_ignored_witness :
  let p := mkParams 1 20 "Price" "" "" "" "" in
  isValidValue (sort_by p) VALID_SORT_FIELDS = true /\
  ~ In (sort_by p) VALID_SORT_FIELDS /\
  (fst (order_clause p) = "ORDER BY created_at DESC" /\
   ~ In ("Invalid sort_by value: " ++ sort_by p ++ ", using default")%string
       (snd (order_clause p))).
Proof.
  intros p.
  assert (H1 : isValidValue (sort_by p) VALID_SORT_FIELDS = true) by (vm_compute; reflexivity).
  assert (H2 : ~ In (sort_by p) VALID_SORT_FIELDS)
    by (cbn; intros [H|[H|[H|[]]]]; discriminate H).
  split; [exact H1|]. split; [exact H2|].
  apply (order_clause_mixed_case_sort_by_ignored p H1 H2).
Defined.

Lemma stock_conditions_mixed_case_ignored_witness :
  let p := mkParams 1 20 "" "" "IN_STOCK" "" "" in
  isValidValue (filter_stock p) VALID_STOCK_FILTERS = true /\
  ~ In (filter_stock p) VALID_STOCK_FILTERS /\
  stock_conditions p = ([], []).
Proof.
  intros p.
  assert (H1 : isValidValue (filter_stock p) VALID_STOCK_FILTERS = true)
    by (vm_compute; reflexivity).
  assert (H2 : ~ In (filter_stock p) VALID_STOCK_FILTERS)
    by (cbn; intros [H|[H|[]]]; discriminate H).
  split; [exact H1|]. split; [exact H2|].
  apply (stock_conditions_mixed_case_ignored p H1 H2).
Defined.

Lemma has_next_iff_items_remain_witness :
  (0 <= 45)%Z /\ (0 < 20)%Z /\ (45 + 20 - 1 <= 2147483647)%Z /\ (0 <= 2)%Z /\
  (has_next (mkResult 45 2 20) = true <-> (2 * 20 < 45)%Z).
Proof.
  split; [lia|]. split; [lia|]. split; [lia|]. split; [lia|].
  apply (has_next_iff_items_remain 45 2 20); lia.
Defined.
